(** * MediaFlow Proxy launchers: a shallow embedding of [launcher.py] and
    [launcher1.py], and the properties of their bootstrap logic.

    The two Python files are embedded as the modules [launcher] and
    [launcher1].  What they call in the Python standard library ([int],
    [str.strip], [str.lower], [str.split], [ipaddress.IPv4Address]) is
    embedded in the module [Py], following CPython 3.11.  The operating
    system, the network and the [cryptography] package are inputs of the
    model (record [host]); the disk, [os.environ] and the console are the
    state of the process (record [process]).  [print] and [Path.exists] are
    first embedded as calls that succeed; the definitions whose names end
    in [_with] are the same functions with these two calls failing as a
    record of type [faults] says. *)

From Stdlib Require Import ZArith Ascii String DecimalString.
From stdpp Require Import gmap strings list.

Local Open Scope string_scope.
Local Open Scope Z_scope.
Local Open Scope list_scope.

(** ** Exceptions and results *)

(** The payload of a [ValueError]; [ipaddress.AddressValueError] and
    [UnicodeEncodeError] are subclasses of [ValueError]. *)
Inductive value_error :=
  | InvalidLiteral (s : string)     (* invalid literal for int() with base 10 *)
  | ExceedsDigitLimit               (* Exceeds the limit (4300 digits) *)
  | OutOfRange (port : Z)           (* raised by validate_config itself *)
  | AddressValueError (s : string)  (* raised by ipaddress.IPv4Address *)
  | UnicodeEncodeError (encoding : string). (* raised by print: the codec of
                                               sys.stdout cannot encode *)

(** The subclasses of [Exception] that the launchers can meet. *)
Inductive exn :=
  | ValueError (v : value_error)
  | ImportError
  | OSError (strerror : string)
  | RuntimeError (msg : string).

Inductive result (A : Type) :=
  | Ok (a : A)
  | Raise (e : exn).
Arguments Ok {A} a.
Arguments Raise {A} e.

(** ** The Python built-ins the launchers use *)

Module Py.

(** Strings are sequences of code points below 256 (ASCII and Latin-1),
    on which the functions below are CPython's. *)
Definition code (c : ascii) : nat := nat_of_ascii c.

Definition between (lo hi n : nat) : bool := ((lo <=? n) && (n <=? hi))%nat.

(** [str.isspace] on one character: TAB..CR, FS..US, space, NEL, NBSP. *)
Definition isspace (c : ascii) : bool :=
  between 9 13 (code c) || between 28 32 (code c)
  || (code c =? 133)%nat || (code c =? 160)%nat.

(** [str.isdigit() and str.isascii()] on one character. *)
Definition isdigit (c : ascii) : bool := between 48 57 (code c).

Definition digit_value (c : ascii) : Z := Z.of_nat (code c) - 48.

(** [str.lower] on one character: A..Z and the Latin-1 capitals
    (all of U+00C0..U+00DE but the multiplication sign). *)
Definition lower_char (c : ascii) : ascii :=
  if between 65 90 (code c)
     || (between 192 222 (code c) && negb (code c =? 215)%nat)
  then ascii_of_nat (code c + 32)
  else c.

Fixpoint lower (s : string) : string :=
  match s with
  | EmptyString => EmptyString
  | String c s' => String (lower_char c) (lower s')
  end.

Fixpoint lstrip (s : string) : string :=
  match s with
  | EmptyString => EmptyString
  | String c s' => if isspace c then lstrip s' else s
  end.

Fixpoint rstrip (s : string) : string :=
  match s with
  | EmptyString => EmptyString
  | String c s' =>
      match rstrip s' with
      | EmptyString => if isspace c then EmptyString else String c EmptyString
      | r => String c r
      end
  end.

(** [s.strip()] *)
Definition strip (s : string) : string := rstrip (lstrip s).

(** [s.split(sep)] for a separator of one character. *)
Fixpoint split (sep : ascii) (s : string) : list string :=
  match s with
  | EmptyString => [EmptyString]
  | String c s' =>
      if decide (c = sep) then EmptyString :: split sep s'
      else match split sep s' with
           | h :: t => String c h :: t
           | [] => [String c EmptyString]
           end
  end.

(** Truth value of a string: [bool(s)]. *)
Definition truthy (s : string) : bool :=
  match s with EmptyString => false | _ => true end.

(** *** [int(s)] for a string, base 10

    [PyLong_FromString]: leading white space, an optional sign, digits
    with single underscores between them, trailing white space.  White
    space is [Py_ISSPACE] below 128 (TAB..CR and space) and the Unicode
    spaces above (NEL, NBSP), which CPython first rewrites to a space. *)
Definition int_space (c : ascii) : bool :=
  between 9 13 (code c) || (code c =? 32)%nat
  || (code c =? 133)%nat || (code c =? 160)%nat.

Fixpoint skip_space (s : string) : string :=
  match s with
  | EmptyString => EmptyString
  | String c s' => if int_space c then skip_space s' else s
  end.

(** [sys.get_int_max_str_digits()], at its default. *)
Definition int_max_str_digits : nat := 4300.

(** The scanning loop of [long_from_string_base]: [prev_us] says that the
    previous character was an underscore; the result is the value, the
    number of digits and the unread rest. *)
Fixpoint scan_digits (prev_us : bool) (acc : Z) (digits : nat) (s : string)
  : option (Z * nat * string) :=
  match s with
  | EmptyString => if prev_us then None else Some (acc, digits, EmptyString)
  | String c s' =>
      if isdigit c then scan_digits false (10 * acc + digit_value c) (S digits) s'
      else if decide (c = "_"%char) then
        if prev_us then None else scan_digits true acc digits s'
      else if prev_us then None else Some (acc, digits, s)
  end.

Definition int (s : string) : result Z :=
  let invalid := Raise (ValueError (InvalidLiteral s)) in
  let s1 := skip_space s in
  let '(sign, s2) :=
    match s1 with
    | String "+" r => (1, r)
    | String "-" r => (-1, r)
    | _ => (1, s1)
    end in
  match s2 with
  | String "_" _ => invalid
  | _ =>
      match scan_digits false 0 0 s2 with
      | None => invalid
      | Some (v, digits, rest) =>
          if (int_max_str_digits <? digits)%nat then
            Raise (ValueError ExceedsDigitLimit)
          else if (digits =? 0)%nat then invalid
          else match skip_space rest with
               | EmptyString => Ok (sign * v)
               | _ => invalid
               end
      end
  end.

(** *** [ipaddress.IPv4Address(s)] for a string *)

Fixpoint all_chars (f : ascii → bool) (s : string) : bool :=
  match s with
  | EmptyString => true
  | String c s' => f c && all_chars f s'
  end.

Fixpoint contains (c : ascii) (s : string) : bool :=
  match s with
  | EmptyString => false
  | String d s' => bool_decide (d = c) || contains c s'
  end.

Definition starts_with (c : ascii) (s : string) : bool :=
  match s with
  | String d _ => bool_decide (d = c)
  | EmptyString => false
  end.

(** [IPv4Address._parse_octet] *)
Definition parse_octet (octet_str : string) : result Z :=
  let bad := Raise (ValueError (AddressValueError octet_str)) in
  if negb (truthy octet_str) then bad
  else if negb (all_chars isdigit octet_str) then bad
  else if (3 <? String.length octet_str)%nat then bad
  else if negb (bool_decide (octet_str = "0")) && starts_with "0" octet_str
  then bad
  else match int octet_str with
       | Ok octet_int => if 255 <? octet_int then bad else Ok octet_int
       | Raise e => Raise e
       end.

(** [for x in l: acc = step(acc, f(x))], stopping at the first raise. *)
Fixpoint fold_result {A} (f : A → result Z) (step : Z → Z → Z) (acc : Z)
    (l : list A) : result Z :=
  match l with
  | [] => Ok acc
  | x :: l' =>
      match f x with
      | Ok v => fold_result f step (step acc v) l'
      | Raise e => Raise e
      end
  end.

(** [IPv4Address._ip_int_from_string]: four octets, big-endian. *)
Definition ip4_int_from_string (ip_str : string) : result Z :=
  let bad := Raise (ValueError (AddressValueError ip_str)) in
  if negb (truthy ip_str) then bad
  else
    let octets := split "." ip_str in
    if negb (length octets =? 4)%nat then bad
    else match fold_result parse_octet (λ acc o, acc * 256 + o) 0 octets with
         | Ok n => Ok n
         | Raise _ => bad
         end.

(** [IPv4Address(address)._ip] *)
Definition IPv4Address (address : string) : result Z :=
  if contains "/" address
  then Raise (ValueError (AddressValueError address))
  else ip4_int_from_string address.

(** *** [ipaddress.IPv6Address(s)] for a string *)

Definition ishex (c : ascii) : bool :=
  isdigit c || between 97 102 (code c) || between 65 70 (code c).

Definition hex_value (c : ascii) : Z :=
  if isdigit c then Z.of_nat (code c) - 48
  else if between 97 102 (code c) then Z.of_nat (code c) - 87
  else Z.of_nat (code c) - 55.

Fixpoint hex_int (acc : Z) (s : string) : Z :=
  match s with
  | EmptyString => acc
  | String c s' => hex_int (16 * acc + hex_value c) s'
  end.

(** [IPv6Address._parse_hextet]; [int('', 16)] raises. *)
Definition parse_hextet (hextet_str : string) : result Z :=
  let bad := Raise (ValueError (AddressValueError hextet_str)) in
  if negb (all_chars ishex hextet_str) then bad
  else if (4 <? String.length hextet_str)%nat then bad
  else if negb (truthy hextet_str) then bad
  else Ok (hex_int 0 hextet_str).

(** ['%x' % n] for [0 <= n < 65536]. *)
Definition hex_digit (n : Z) : ascii :=
  ascii_of_nat (Z.to_nat (if n <? 10 then 48 + n else 87 + n)).

Fixpoint drop_zeros (digits : list Z) : list Z :=
  match digits with
  | 0 :: ds => drop_zeros ds
  | _ => digits
  end.

Definition format_hex (n : Z) : string :=
  let digits := [n / 4096; (n / 256) mod 16; (n / 16) mod 16; n mod 16] in
  match drop_zeros digits with
  | [] => "0"
  | ds => string_of_list_ascii (hex_digit <$> ds)
  end.

(** The indices [i] of [range(1, len(parts) - 1)] with [not parts[i]]. *)
Definition inner_empty (parts : list string) : list nat :=
  filter (λ i, from_option truthy true (parts !! i) = false)
         (seq 1 (length parts - 2)).

(** [IPv6Address._ip_int_from_string] *)
Definition ip6_int_from_string (ip_str : string) : result Z :=
  let bad := Raise (ValueError (AddressValueError ip_str)) in
  let shift := λ acc h, Z.lor (Z.shiftl acc 16) h in
  if negb (truthy ip_str) then bad
  else
    let parts := split ":" ip_str in
    if (length parts <? 3)%nat then bad
    else
      let last_part := List.last parts "" in
      let suffix :=
        if contains "." last_part then
          match IPv4Address last_part with
          | Ok ipv4_int =>
              Ok (removelast parts
                  ++ [format_hex (Z.land (Z.shiftr ipv4_int 16) 65535);
                      format_hex (Z.land ipv4_int 65535)])
          | Raise e => Raise e
          end
        else Ok parts in
      match suffix with
      | Raise _ => bad
      | Ok parts =>
          if (9 <? length parts)%nat then bad
          else
            let first_empty := negb (truthy (List.hd "" parts)) in
            let last_empty := negb (truthy (List.last parts "")) in
            let counts :=
              match inner_empty parts with
              | [] =>
                  if negb (length parts =? 8)%nat then None
                  else if first_empty || last_empty then None
                  else Some (length parts, 0%nat, 0%nat)
              | [skip_index] =>
                  let hi := skip_index in
                  let lo := (length parts - skip_index - 1)%nat in
                  let hi' := if first_empty then (hi - 1)%nat else hi in
                  let lo' := if last_empty then (lo - 1)%nat else lo in
                  if first_empty && negb (hi' =? 0)%nat then None
                  else if last_empty && negb (lo' =? 0)%nat then None
                  else if (8 <=? hi' + lo')%nat then None
                  else Some (hi', lo', (8 - (hi' + lo'))%nat)
              | _ => None
              end in
            match counts with
            | None => bad
            | Some (parts_hi, parts_lo, parts_skipped) =>
                match fold_result parse_hextet shift 0 (take parts_hi parts) with
                | Raise _ => bad
                | Ok hi =>
                    match fold_result parse_hextet shift
                            (Z.shiftl hi (16 * Z.of_nat parts_skipped))
                            (drop (length parts - parts_lo) parts) with
                    | Raise _ => bad
                    | Ok ip_int => Ok ip_int
                    end
                end
            end
      end.

(** [IPv6Address._split_scope_id] *)
Fixpoint partition_percent (s : string) : string * option string :=
  match s with
  | EmptyString => (EmptyString, None)
  | String c s' =>
      if decide (c = "%"%char) then (EmptyString, Some s')
      else let '(a, scope) := partition_percent s' in (String c a, scope)
  end.

(** [IPv6Address(address)]: the pair [(_ip, _scope_id)]. *)
Definition IPv6Address (address : string) : result (Z * option string) :=
  let bad := Raise (ValueError (AddressValueError address)) in
  if contains "/" address then bad
  else
    let '(addr_str, scope_id) := partition_percent address in
    match scope_id with
    | Some scope =>
        if negb (truthy scope) || contains "%" scope then bad
        else match ip6_int_from_string addr_str with
             | Ok ip => Ok (ip, Some scope)
             | Raise e => Raise e
             end
    | None =>
        match ip6_int_from_string addr_str with
        | Ok ip => Ok (ip, None)
        | Raise e => Raise e
        end
    end.

End Py.

(** ** The process: environment, disk and console *)

(** A [pathlib.Path], as the list of its components. *)
Definition Path := list string.

(** [p / name] *)
Definition path_join (p : Path) (name : string) : Path := p ++ [name].

(** [str(p)] *)
Definition path_str (p : Path) : string := String.concat "/" p.

(** What the launchers print, one constructor per [print] call. *)
Inductive line :=
  (* validate_config *)
  | InvalidPort (e : value_error)
  | UsingDefaultPort (port : Z)
  | ApiPasswordNotSet
  | DefaultApiPassword
  | DefaultApiPasswordAdvice
  | DebugEnabled
  | DebugApiPassword (shown : string)
  | DebugPort (port : Z)
  (* ensure_cert *)
  | HttpsDisabled
  | StartingHttp
  | UsingExisting (cert key : Path)
  | ErrorReadingCerts (e : exn)
  | InvalidCustomIP (ip : string)
  | GeneratedCert (cert key : Path)
  | CertIncludes (detected : list string)
  | CryptoNotAvailable
  | ErrorGenerating (e : exn).

Record process := Process {
  environ : gmap string string;       (* os.environ *)
  disk : gmap Path (list Byte.byte);  (* regular files and their contents *)
  stdout : list line;                 (* printed so far, oldest first *)
}.

(** ** Computations that print, touch the disk and may raise *)

Definition M (A : Type) : Type := process → result A * process.

Definition ret {A} (a : A) : M A := λ p, (Ok a, p).

Definition bind {A B} (m : M A) (k : A → M B) : M B :=
  λ p, match m p with
       | (Ok a, p') => k a p'
       | (Raise e, p') => (Raise e, p')
       end.

Definition raise {A} (e : exn) : M A := λ p, (Raise e, p).

(** [try: body / except ...: handler]: [handler e] is [None] when no
    [except] clause matches [e].  What [body] did before raising stays done. *)
Definition try_except {A} (body : M A) (handler : exn → option (M A)) : M A :=
  λ p, match body p with
       | (Ok a, p') => (Ok a, p')
       | (Raise e, p') =>
           match handler e with
           | Some h => h p'
           | None => (Raise e, p')
           end
       end.

Definition default_to {A} (d : A) (o : option A) : A :=
  match o with Some a => a | None => d end.

Definition lift {A} (r : result A) : M A := λ p, (r, p).

Notation "'let*' x := m 'in' k" := (bind m (λ x, k))
  (at level 10, x pattern, m at level 100, k at level 200).
Notation "m ;; k" := (bind m (λ _, k))
  (at level 100, k at level 200, right associativity).

Definition print (l : line) : M unit :=
  λ p, (Ok tt, Process (environ p) (disk p) (stdout p ++ [l])).

(** [os.getenv(key)] *)
Definition getenv (key : string) : M (option string) :=
  λ p, (Ok (environ p !! key), p).

(** [os.getenv(key, default)] for a string [default] *)
Definition getenv_default (key default : string) : M string :=
  λ p, (Ok (default_to default (environ p !! key)), p).

(** [if c: m] *)
Definition when (c : bool) (m : M unit) : M unit := if c then m else ret tt.

(** [for x in l: s = body(s, x)] *)
Fixpoint for_each {A S} (l : list A) (body : S → A → M S) (s : S) : M S :=
  match l with
  | [] => ret s
  | x :: l' => let* s' := body s x in for_each l' body s'
  end.

(** Values of the dictionaries handed to uvicorn. *)
Inductive pyvalue :=
  | PStr (s : string)
  | PInt (n : Z)
  | PBool (b : bool).

(** ** The [cryptography] package, as data *)

Inductive ip_address :=
  | IPv4 (ip : Z)
  | IPv6 (ip : Z) (scope_id : option string).

(** [x509.GeneralName] *)
Inductive general_name :=
  | DNSName (value : string)
  | IPAddress (address : ip_address).

Inductive name_oid :=
  | COUNTRY_NAME
  | STATE_OR_PROVINCE_NAME
  | LOCALITY_NAME
  | ORGANIZATION_NAME
  | COMMON_NAME.

Inductive hash_algorithm := SHA256.

Record rsa_private_key := RSAKey {
  public_exponent : Z;
  key_size : Z;
  modulus : Z;
  private_exponent : Z;
}.

(** What [x509.CertificateBuilder] collects before [sign]. *)
Record certificate_builder := Builder {
  subject_name : list (name_oid * string);
  issuer_name : list (name_oid * string);
  public_key : Z * Z;                     (* (e, n) *)
  serial_number : Z;
  not_valid_before : Z;                   (* seconds since the epoch *)
  not_valid_after : Z;
  subject_alternative_name : list general_name;
  san_critical : bool;
}.

Record certificate := Certificate {
  tbs : certificate_builder;
  signature_hash : hash_algorithm;
  signature : list Byte.byte;
}.

(** ** The world outside the process

    Each field is the outcome of one call into the operating system, the
    network or the [cryptography] package during one run. *)
Record host := Host {
  (* Path.mkdir(parents=True, exist_ok=True) *)
  mkdir : Path → option exn;
  (* an error of Path.stat() other than a missing file *)
  stat_error : Path → option exn;
  (* open(path, "wb") and f.write(data) *)
  open_error : Path → option exn;
  write_error : Path → option exn;
  (* the import statements of the cryptography package *)
  import_cryptography : option exn;
  (* rsa.generate_private_key(public_exponent, key_size, backend) *)
  generate_private_key : Z → Z → result rsa_private_key;
  (* socket.gethostname(), socket.gethostbyname(name) *)
  gethostname : result string;
  gethostbyname : string → result string;
  (* a UDP socket connected to (address, port): getsockname()[0] *)
  udp_source_address : string → Z → result string;
  (* datetime.datetime.utcnow(), x509.random_serial_number() *)
  utcnow : Z;
  random_serial_number : Z;
  (* CertificateBuilder.sign(key, hash, backend): the signature *)
  rsa_sign : rsa_private_key → hash_algorithm → certificate_builder
             → result (list Byte.byte);
  (* the base64 text of the DER encodings *)
  cert_base64 : certificate → list Byte.byte;
  key_pkcs8_base64 : rsa_private_key → list Byte.byte;
}.

(** PEM armour around a base64 body. *)
Definition pem (label : string) (body : list Byte.byte) : list Byte.byte :=
  list_byte_of_string ("-----BEGIN " +:+ label +:+ "-----")
  ++ [Byte.x0a] ++ body
  ++ list_byte_of_string ("-----END " +:+ label +:+ "-----") ++ [Byte.x0a].

(** *** File-system calls *)

(** [path.exists()]: the disk holds the files the process can see. *)
Definition path_exists (f : Path) : M bool :=
  λ p, (Ok (match disk p !! f with Some _ => true | None => false end), p).

(** [path.stat().st_size] *)
Definition stat_size (h : host) (f : Path) : M Z :=
  λ p, match stat_error h f with
       | Some e => (Raise e, p)
       | None =>
           match disk p !! f with
           | Some content => (Ok (Z.of_nat (length content)), p)
           | None => (Raise (OSError "No such file or directory"), p)
           end
       end.

Definition set_file (f : Path) (content : list Byte.byte) : M unit :=
  λ p, (Ok tt, Process (environ p) (<[f := content]> (disk p)) (stdout p)).

(** [with open(f, "wb") as out: out.write(data)]: opening truncates. *)
Definition write_file (h : host) (f : Path) (data : list Byte.byte) : M unit :=
  match open_error h f with
  | Some e => raise e
  | None =>
      set_file f [];;
      match write_error h f with
      | Some e => raise e
      | None => set_file f data
      end
  end.

(** [raise e] when the call failed. *)
Definition raise_if_failed (o : option exn) : M unit :=
  match o with
  | Some e => raise e
  | None => ret tt
  end.

(** *** Calls that can fail after all

    [print] and [path_exists] above take [sys.stdout.write] and [os.stat]
    to succeed.  In CPython 3.11 [print] raises [UnicodeEncodeError] when
    the encoding of [sys.stdout] has no code for a character of the text,
    and [OSError] when the stream cannot be written; [Path.exists] calls
    [stat] and answers [False] for the errno values ENOENT, ENOTDIR, EBADF
    and ELOOP only: any other [OSError] ([PermissionError] below a directory
    that cannot be searched) is raised again.  A record of type [faults]
    gives these outcomes for one run; [print_on] and [path_exists_on] are
    the two calls with them. *)
Record faults := Faults {
  (* the exception of print(text), when it raises *)
  print_error : line → option exn;
  (* the exception of path.exists(), when it raises *)
  exists_error : Path → option exn;
}.

(** [print(text)] *)
Definition print_on (fl : faults) (l : line) : M unit :=
  match print_error fl l with
  | Some e => raise e
  | None => print l
  end.

(** [path.exists()] *)
Definition path_exists_on (fl : faults) (f : Path) : M bool :=
  match exists_error fl f with
  | Some e => raise e
  | None => path_exists f
  end.

(** ** The rest of the bootstrap

    The functions around [validate_config] and [ensure_cert] print lines of
    their own, set levels of the [logging] module, register signal handlers
    and may leave through [sys.exit] or a [KeyboardInterrupt].  In this part
    [print] and [Path.exists] are the calls that succeed ([say],
    [path_visible]), and [validate_config] and [ensure_cert] are used as
    embedded first, without [faults]. *)

(** What ends a computation early. *)
Inductive interrupt :=
  | Exception (e : exn)
  | SystemExit (code : Z)
  | KeyboardInterrupt.

Inductive outcome (A : Type) :=
  | Done (a : A)
  | Stop (i : interrupt).
Arguments Done {A} a.
Arguments Stop {A} i.

(** [logging.DEBUG], [logging.INFO] *)
Inductive log_level := LOG_DEBUG | LOG_INFO.

Inductive signum := SIGINT | SIGTERM.

(** The console, one constructor per [print] call. *)
Inductive notice :=
  | Said (l : line)                 (* validate_config, ensure_cert *)
  | Rule (c : string) (width : Z)   (* c * width *)
  | Title
  | WorkingDirectory (base : Path)
  (* launcher1.show_startup_info *)
  | ServingOn (protocol host_name : string) (port : Z)
  | LocalUrl (protocol : string) (port : Z)
  | NetworkUrl (protocol local_ip : string) (port : Z)
  (* launcher.setup_environment, launcher.show_startup_info, launcher.main *)
  | LoadedConfiguration (dotenv_path : Path)
  | NoEnvFile (dotenv_path : Path)
  | RunningStandalone
  | RunningAsScript
  | Found (filename : string)
  | Missing (filename : string)
  | BasePath (base : Path)
  (* launcher.run *)
  | UvloopActivated
  | UvloopUnavailable
  | AppImportFailed (e : exn)
  | AppImportAdvice
  | SslEnabled (cert_name key_name : string)
  | NoSslCertificates
  | StartingWorkers (workers : Z)
  | ServerAvailable (scheme : string) (port : Z)
  | ApiDocumentation (scheme : string) (port : Z)
  | HomePage (scheme : string) (port : Z)
  | SpeedTest (scheme : string) (port : Z)
  | PressCtrlC
  | ServerStopped
  | ErrorStarting (e : exn)
  | Traceback.

Record session := Session {
  os_environ : gmap string string;           (* os.environ *)
  files : gmap Path (list Byte.byte);        (* regular files *)
  console : list notice;                     (* printed so far *)
  logger_levels : gmap string log_level;     (* levels set in logging *)
  sys_path : list string;                    (* sys.path *)
  signal_handlers : list signum;             (* signals with a handler *)
  uvicorn_calls : list (gmap string pyvalue); (* keyword arguments of the
                                                 calls of uvicorn.run *)
}.

(** The interpreter, the installed packages and the server, as one run
    meets them. *)
Record platform := Platform {
  (* getattr(sys, "frozen", False) *)
  frozen : bool;
  (* the parents of sys.executable and of __file__ *)
  executable_dir : Path;
  script_dir : Path;
  (* os.pathsep *)
  pathsep : string;
  (* the directories the process can see *)
  is_directory : Path → bool;
  (* python-dotenv on the text of a file: the dictionary of its keys, a key
     without a value bound to None; ${NAME} in a value is expanded with
     os.environ, which is why the environment is an argument; reading or
     decoding the file can raise *)
  dotenv_values : gmap string string → list Byte.byte
                  → result (gmap string (option string));
  (* logging.getLogger().hasHandlers(), before main configures logging *)
  root_has_handlers : bool;
  (* from dotenv import load_dotenv; import uvicorn;
     import uvloop and uvloop.install();
     from mediaflow_proxy.main import app *)
  import_dotenv : option exn;
  import_uvicorn : option exn;
  install_uvloop : option exn;
  import_app : option exn;
  (* signal.signal(sig, handler) *)
  signal_error : signum → option exn;
  (* how uvicorn.run with these keyword arguments ends *)
  serving_ends : gmap string pyvalue → outcome unit;
}.

Definition W (A : Type) : Type := session → outcome A * session.

Definition wret {A} (a : A) : W A := λ s, (Done a, s).

Definition wbind {A B} (m : W A) (k : A → W B) : W B :=
  λ s, match m s with
       | (Done a, s') => k a s'
       | (Stop i, s') => (Stop i, s')
       end.

Definition wstop {A} (i : interrupt) : W A := λ s, (Stop i, s).

(** [try: body / except ...: handler], as [try_except]. *)
Definition wtry {A} (body : W A) (handler : interrupt → option (W A)) : W A :=
  λ s, match body s with
       | (Done a, s') => (Done a, s')
       | (Stop i, s') =>
           match handler i with
           | Some h => h s'
           | None => (Stop i, s')
           end
       end.

Notation "'let+' x := m 'in' k" := (wbind m (λ x, k))
  (at level 10, x pattern, m at level 100, k at level 200).
Notation "m ;+ k" := (wbind m (λ _, k))
  (at level 100, k at level 200, right associativity).

(** A computation of [validate_config] or [ensure_cert] inside a session:
    what it prints goes to the console. *)
Definition lift_M {A} (m : M A) : W A :=
  λ s, let '(r, p) := m (Process (os_environ s) (files s) []) in
       (match r with Ok a => Done a | Raise e => Stop (Exception e) end,
        Session (environ p) (disk p) (console s ++ (Said <$> stdout p))
                (logger_levels s) (sys_path s) (signal_handlers s)
                (uvicorn_calls s)).

Definition say (n : notice) : W unit :=
  λ s, (Done tt,
        Session (os_environ s) (files s) (console s ++ [n])
                (logger_levels s) (sys_path s) (signal_handlers s)
                (uvicorn_calls s)).

(** [os.environ[key] = value] *)
Definition putenv (key value : string) : W unit :=
  λ s, (Done tt,
        Session (<[key := value]> (os_environ s)) (files s) (console s)
                (logger_levels s) (sys_path s) (signal_handlers s)
                (uvicorn_calls s)).

(** [logging.getLogger(name).setLevel(level)] *)
Definition set_level (name : string) (level : log_level) : W unit :=
  λ s, (Done tt,
        Session (os_environ s) (files s) (console s)
                (<[name := level]> (logger_levels s)) (sys_path s)
                (signal_handlers s) (uvicorn_calls s)).

(** [sys.path.insert(0, entry)] *)
Definition sys_path_insert (entry : string) : W unit :=
  λ s, (Done tt,
        Session (os_environ s) (files s) (console s) (logger_levels s)
                (entry :: sys_path s) (signal_handlers s) (uvicorn_calls s)).

(** [signal.signal(sig, handler)] *)
Definition install_handler (pf : platform) (sig : signum) : W unit :=
  λ s, match signal_error pf sig with
       | Some e => (Stop (Exception e), s)
       | None =>
           (Done tt,
            Session (os_environ s) (files s) (console s) (logger_levels s)
                    (sys_path s) (signal_handlers s ++ [sig])
                    (uvicorn_calls s))
       end.

(** An import statement: [raise e] when it failed. *)
Definition import_or_raise (o : option exn) : W unit :=
  match o with
  | Some e => wstop (Exception e)
  | None => wret tt
  end.

Definition of_result {A} (r : result A) : W A :=
  match r with
  | Ok a => wret a
  | Raise e => wstop (Exception e)
  end.

(** [path.exists()] for a file or a directory. *)
Definition path_visible (pf : platform) (f : Path) : W bool :=
  λ s, (Done (is_directory pf f
              || match files s !! f with Some _ => true | None => false end),
        s).

(** [load_dotenv(dotenv_path)] of python-dotenv, with its default
    [override=False]: a path that is not a file changes nothing, a variable
    that is already set is kept, a key without a value is skipped; the
    answer says whether the file gave any key. *)
Definition load_dotenv (pf : platform) (dotenv_path : Path) : W bool :=
  λ s, match files s !! dotenv_path with
       | None => (Done false, s)
       | Some text =>
           match dotenv_values pf (os_environ s) text with
           | Raise e => (Stop (Exception e), s)
           | Ok values =>
               (Done (negb (bool_decide (values = ∅))),
                Session (os_environ s ∪ omap id values) (files s) (console s)
                        (logger_levels s) (sys_path s) (signal_handlers s)
                (uvicorn_calls s))
           end
       end.

(** [uvicorn.run] with keyword arguments: the call is recorded, and ends
    as the platform says. *)
Definition uvicorn_run (pf : platform) (kwargs : gmap string pyvalue)
  : W unit :=
  λ s, (serving_ends pf kwargs,
        Session (os_environ s) (files s) (console s) (logger_levels s)
                (sys_path s) (signal_handlers s) (uvicorn_calls s ++ [kwargs])).

(** [for x in l: body(x)] *)
Fixpoint wfor {A} (l : list A) (body : A → W unit) : W unit :=
  match l with
  | [] => wret tt
  | x :: l' => body x ;+ wfor l' body
  end.

(** ** launcher1.py *)

Module launcher1.

(** [parse_bool(value, default)] *)
Definition parse_bool (value : option string) (default : bool) : bool :=
  match value with
  | None => default
  | Some v => bool_decide (Py.lower (Py.strip v) ∈ ["1"; "true"; "yes"; "on"])
  end.

(** [validate_config()]: returns [(port, debug)]. *)
Definition validate_config : M (Z * bool) :=
  let* port :=
    try_except
      (let* v := getenv_default "PORT" "8888" in
       let* port := lift (Py.int v) in
       if negb ((1 <=? port) && (port <=? 65535))
       then raise (ValueError (OutOfRange port))
       else ret port)
      (λ e, match e with
            | ValueError e =>
                Some (print (InvalidPort e);;
                      let port := 8888 in
                      print (UsingDefaultPort port);;
                      ret port)
            | _ => None
            end) in
  let* api_pw := getenv "API_PASSWORD" in
  (if negb (Py.truthy (default_to "" api_pw)) then print ApiPasswordNotSet
   else when (bool_decide (api_pw = Some "changeme")) (print DefaultApiPassword));;
  let* debug_env := getenv "DEBUG" in
  let debug := parse_bool debug_env false in
  when debug
    (print DebugEnabled;;
     print (DebugApiPassword
              (if Py.truthy (default_to "" api_pw)
               then default_to "" api_pw else "<not set>"));;
     print (DebugPort port));;
  ret (port, debug).

(** The dictionary [{"ssl_certfile": ..., "ssl_keyfile": ...}]. *)
Definition ssl_paths (cert_file key_file : Path) : gmap string pyvalue :=
  <["ssl_certfile" := PStr (path_str cert_file)]>
    (<["ssl_keyfile" := PStr (path_str key_file)]> ∅).

(** [ensure_cert], lines 90-96: the early return on usable files.
    [Some r] is [return r]; [None] falls through to the generation. *)
Definition load_existing (h : host) (cert_file key_file : Path)
  : M (option (gmap string pyvalue * string)) :=
  let* cert_exists := path_exists cert_file in
  let* key_exists := if cert_exists then path_exists key_file else ret false in
  if key_exists then
    try_except
      (let* cert_size := stat_size h cert_file in
       let* sizes :=
         if cert_size =? 0 then ret false
         else let* key_size := stat_size h key_file in
              ret (negb (key_size =? 0)) in
       if sizes then
         print (UsingExisting cert_file key_file);;
         ret (Some (ssl_paths cert_file key_file, "HTTPS"))
       else ret None)
      (λ e, Some (print (ErrorReadingCerts e);; ret None))
  else ret None.

(** [ensure_cert], lines 116-120: the list starts with the loopback
    names. *)
Definition seed_san_list : M (list general_name) :=
  let* loopback4 := lift (Py.IPv4Address "127.0.0.1") in
  let* loopback6 := lift (Py.IPv6Address "::1") in
  ret [DNSName "localhost";
       IPAddress (IPv4 loopback4);
       IPAddress (IPv6 loopback6.1 loopback6.2)].

(** [ensure_cert], lines 124-131: the address the host name resolves to. *)
Definition add_hostname_ip (h : host)
    (acc : list general_name * list string)
  : M (list general_name * list string) :=
  let '(san_list, detected_ips) := acc in
  try_except
    (let* hostname := lift (gethostname h) in
     let* local_ip := lift (gethostbyname h hostname) in
     if negb (bool_decide (local_ip = "127.0.0.1")) then
       let* address := lift (Py.IPv4Address local_ip) in
       ret (san_list ++ [IPAddress (IPv4 address)], detected_ips ++ [local_ip])
     else ret (san_list, detected_ips))
    (λ _, Some (ret (san_list, detected_ips))).

(** [ensure_cert], lines 134-143: the source address of the default
    route. *)
Definition add_primary_ip (h : host)
    (acc : list general_name * list string)
  : M (list general_name * list string) :=
  let '(san_list, detected_ips) := acc in
  try_except
    (let* primary_ip := lift (udp_source_address h "8.8.8.8" 80) in
     if negb (bool_decide (primary_ip ∈ ["127.0.0.1"] ++ detected_ips)) then
       let* address := lift (Py.IPv4Address primary_ip) in
       ret (san_list ++ [IPAddress (IPv4 address)], detected_ips ++ [primary_ip])
     else ret (san_list, detected_ips))
    (λ _, Some (ret (san_list, detected_ips))).

(** [ensure_cert], lines 149-155: the body of the loop over the entries
    of [CERT_ADDITIONAL_IPS]. *)
Definition add_custom_ip (acc : list general_name * list string)
    (ip : string) : M (list general_name * list string) :=
  let '(san_list, detected_ips) := acc in
  let ip := Py.strip ip in
  if Py.truthy ip then
    try_except
      (let* address := lift (Py.IPv4Address ip) in
       ret (san_list ++ [IPAddress (IPv4 address)], detected_ips ++ [ip]))
      (λ _, Some (print (InvalidCustomIP ip);; ret (san_list, detected_ips)))
  else ret (san_list, detected_ips).

(** [ensure_cert], lines 116-155: the subject alternative names and the
    detected addresses. *)
Definition san_discovery (h : host) : M (list general_name * list string) :=
  let* san_list := seed_san_list in
  let detected_ips : list string := [] in
  let* acc := add_hostname_ip h (san_list, detected_ips) in
  let* acc := add_primary_ip h acc in
  let* custom_env := getenv_default "CERT_ADDITIONAL_IPS" "" in
  let custom_ips := Py.strip custom_env in
  if Py.truthy custom_ips then
    for_each (Py.split "," custom_ips) add_custom_ip acc
  else ret acc.

(** [ensure_cert], lines 107-113 and 159-168: what is signed. *)
Definition self_signed (h : host) (key : rsa_private_key)
    (san_list : list general_name) : certificate_builder :=
  let subject :=
    [(COUNTRY_NAME, "US");
     (STATE_OR_PROVINCE_NAME, "CA");
     (LOCALITY_NAME, "Local");
     (ORGANIZATION_NAME, "MediaFlow Proxy");
     (COMMON_NAME, "localhost")] in
  let issuer := subject in
  let now := utcnow h in
  {| subject_name := subject;
     issuer_name := issuer;
     public_key := (public_exponent key, modulus key);
     serial_number := random_serial_number h;
     not_valid_before := now - 60;
     not_valid_after := now + 365 * 86400;
     subject_alternative_name := san_list;
     san_critical := false |}.

(** [ensure_cert], lines 98-191: generation, with its two handlers. *)
Definition generate (h : host) (cert_file key_file : Path)
  : M (gmap string pyvalue * string) :=
  try_except
    (raise_if_failed (import_cryptography h);;
     let* key := lift (generate_private_key h 65537 2048) in
     let* (san_list, detected_ips) := san_discovery h in
     let builder := self_signed h key san_list in
     let* sig := lift (rsa_sign h key SHA256 builder) in
     let cert := {| tbs := builder; signature_hash := SHA256; signature := sig |} in
     write_file h cert_file (pem "CERTIFICATE" (cert_base64 h cert));;
     write_file h key_file (pem "PRIVATE KEY" (key_pkcs8_base64 h key));;
     print (GeneratedCert cert_file key_file);;
     when (negb (bool_decide (detected_ips = [])))
          (print (CertIncludes detected_ips));;
     ret (ssl_paths cert_file key_file, "HTTPS"))
    (λ e, match e with
          | ImportError => Some (print CryptoNotAvailable;; ret (∅, "HTTP"))
          | _ => Some (print (ErrorGenerating e);; ret (∅, "HTTP"))
          end).

(** [ensure_cert(cert_base)]: returns [(ssl_config, protocol)]. *)
Definition ensure_cert (h : host) (cert_base : Path)
  : M (gmap string pyvalue * string) :=
  let* disable_env := getenv "DISABLE_HTTPS" in
  let disable_https := parse_bool disable_env false in
  if disable_https then
    print HttpsDisabled;;
    print StartingHttp;;
    ret (∅, "HTTP")
  else
    let dist_bin := path_join cert_base "bin" in
    raise_if_failed (mkdir h dist_bin);;
    let cert_file := path_join dist_bin "server.pem" in
    let key_file := path_join dist_bin "server.key" in
    let* existing := load_existing h cert_file key_file in
    match existing with
    | Some r => ret r
    | None => generate h cert_file key_file
    end.

(** [build_uvicorn_config(port, host, ssl_config, enable_http2, debug)];
    a dictionary is true when it is not empty, and [config.update(d)]
    lets the entries of [d] win. *)
Definition build_uvicorn_config (port : Z) (host : string)
    (ssl_config : gmap string pyvalue) (enable_http2 debug : bool)
  : gmap string pyvalue :=
  let config : gmap string pyvalue :=
    list_to_map
      [("app", PStr "mediaflow_proxy.main:app");
       ("host", PStr host);
       ("port", PInt port);
       ("log_level", PStr (if debug then "debug" else "info"));
       ("proxy_headers", PBool true);
       ("forwarded_allow_ips", PStr "*");
       ("http", PStr (if negb (bool_decide (ssl_config = ∅)) && enable_http2
                      then "h11" else "auto"))] in
  ssl_config ∪ config.

(** *** The same functions, with the calls that can fail

    [validate_config] and [ensure_cert] once more, line by line as
    above, with [print_on] for [print] and [path_exists_on] for
    [path_exists]: an exception of [print] or of [Path.exists] is raised
    where the call stands, inside or outside the [try] blocks of the
    source. *)

(** [validate_config()]: returns [(port, debug)]. *)
Definition validate_config_with (fl : faults) : M (Z * bool) :=
  let* port :=
    try_except
      (let* v := getenv_default "PORT" "8888" in
       let* port := lift (Py.int v) in
       if negb ((1 <=? port) && (port <=? 65535))
       then raise (ValueError (OutOfRange port))
       else ret port)
      (λ e, match e with
            | ValueError e =>
                Some (print_on fl (InvalidPort e);;
                      let port := 8888 in
                      print_on fl (UsingDefaultPort port);;
                      ret port)
            | _ => None
            end) in
  let* api_pw := getenv "API_PASSWORD" in
  (if negb (Py.truthy (default_to "" api_pw))
   then print_on fl ApiPasswordNotSet
   else when (bool_decide (api_pw = Some "changeme"))
             (print_on fl DefaultApiPassword));;
  let* debug_env := getenv "DEBUG" in
  let debug := parse_bool debug_env false in
  when debug
    (print_on fl DebugEnabled;;
     print_on fl (DebugApiPassword
                    (if Py.truthy (default_to "" api_pw)
                     then default_to "" api_pw else "<not set>"));;
     print_on fl (DebugPort port));;
  ret (port, debug).

(** [ensure_cert], lines 90-96: the two calls of [exists] stand before
    the [try]. *)
Definition load_existing_with (fl : faults) (h : host)
    (cert_file key_file : Path)
  : M (option (gmap string pyvalue * string)) :=
  let* cert_exists := path_exists_on fl cert_file in
  let* key_exists :=
    if cert_exists then path_exists_on fl key_file else ret false in
  if key_exists then
    try_except
      (let* cert_size := stat_size h cert_file in
       let* sizes :=
         if cert_size =? 0 then ret false
         else let* key_size := stat_size h key_file in
              ret (negb (key_size =? 0)) in
       if sizes then
         print_on fl (UsingExisting cert_file key_file);;
         ret (Some (ssl_paths cert_file key_file, "HTTPS"))
       else ret None)
      (λ e, Some (print_on fl (ErrorReadingCerts e);; ret None))
  else ret None.

(** [ensure_cert], lines 149-155 *)
Definition add_custom_ip_with (fl : faults)
    (acc : list general_name * list string) (ip : string)
  : M (list general_name * list string) :=
  let '(san_list, detected_ips) := acc in
  let ip := Py.strip ip in
  if Py.truthy ip then
    try_except
      (let* address := lift (Py.IPv4Address ip) in
       ret (san_list ++ [IPAddress (IPv4 address)], detected_ips ++ [ip]))
      (λ _, Some (print_on fl (InvalidCustomIP ip);;
                  ret (san_list, detected_ips)))
  else ret (san_list, detected_ips).

(** [ensure_cert], lines 116-155 *)
Definition san_discovery_with (fl : faults) (h : host)
  : M (list general_name * list string) :=
  let* san_list := seed_san_list in
  let detected_ips : list string := [] in
  let* acc := add_hostname_ip h (san_list, detected_ips) in
  let* acc := add_primary_ip h acc in
  let* custom_env := getenv_default "CERT_ADDITIONAL_IPS" "" in
  let custom_ips := Py.strip custom_env in
  if Py.truthy custom_ips then
    for_each (Py.split "," custom_ips) (add_custom_ip_with fl) acc
  else ret acc.

(** [ensure_cert], lines 98-191 *)
Definition generate_with (fl : faults) (h : host)
    (cert_file key_file : Path) : M (gmap string pyvalue * string) :=
  try_except
    (raise_if_failed (import_cryptography h);;
     let* key := lift (generate_private_key h 65537 2048) in
     let* (san_list, detected_ips) := san_discovery_with fl h in
     let builder := self_signed h key san_list in
     let* sig := lift (rsa_sign h key SHA256 builder) in
     let cert := {| tbs := builder; signature_hash := SHA256; signature := sig |} in
     write_file h cert_file (pem "CERTIFICATE" (cert_base64 h cert));;
     write_file h key_file (pem "PRIVATE KEY" (key_pkcs8_base64 h key));;
     print_on fl (GeneratedCert cert_file key_file);;
     when (negb (bool_decide (detected_ips = [])))
          (print_on fl (CertIncludes detected_ips));;
     ret (ssl_paths cert_file key_file, "HTTPS"))
    (λ e, match e with
          | ImportError =>
              Some (print_on fl CryptoNotAvailable;; ret (∅, "HTTP"))
          | _ => Some (print_on fl (ErrorGenerating e);; ret (∅, "HTTP"))
          end).

(** [ensure_cert(cert_base)]: returns [(ssl_config, protocol)]. *)
Definition ensure_cert_with (fl : faults) (h : host) (cert_base : Path)
  : M (gmap string pyvalue * string) :=
  let* disable_env := getenv "DISABLE_HTTPS" in
  let disable_https := parse_bool disable_env false in
  if disable_https then
    print_on fl HttpsDisabled;;
    print_on fl StartingHttp;;
    ret (∅, "HTTP")
  else
    let dist_bin := path_join cert_base "bin" in
    raise_if_failed (mkdir h dist_bin);;
    let cert_file := path_join dist_bin "server.pem" in
    let key_file := path_join dist_bin "server.key" in
    let* existing := load_existing_with fl h cert_file key_file in
    match existing with
    | Some r => ret r
    | None => generate_with fl h cert_file key_file
    end.

(** [get_runtime_base()] *)
Definition get_runtime_base (pf : platform) : Path :=
  if frozen pf then executable_dir pf else script_dir pf.

(** [prepare_env_paths(base_path)] *)
Definition prepare_env_paths (pf : platform) (base_path : Path) : W unit :=
  let bin_path := path_join base_path "bin" in
  let+ there := path_visible pf bin_path in
  if there then
    let+ old := lift_M (getenv_default "PATH" "") in
    putenv "PATH" (path_str bin_path +:+ pathsep pf +:+ old)
  else wret tt.

(** [show_startup_info(base_path, protocol, host, port)] *)
Definition show_startup_info (h : host) (base_path : Path)
    (protocol host_name : string) (port : Z) : W unit :=
  say (Rule "=" 50);+
  say Title;+
  say (Rule "=" 50);+
  say (WorkingDirectory base_path);+
  say (ServingOn protocol host_name port);+
  (if bool_decide (host_name ∈ ["0.0.0.0"; "::"]) then
     say (LocalUrl protocol port);+
     wtry
       (let+ hostname := of_result (gethostname h) in
        let+ local_ip := of_result (gethostbyname h hostname) in
        say (NetworkUrl protocol local_ip port))
       (λ i, match i with
             | Exception _ => Some (wret tt)
             | _ => None
             end)
   else wret tt);+
  say (Rule "=" 50).

(** [configure_logging(debug)]; [logging.basicConfig] leaves a root
    logger that has handlers as it is. *)
Definition configure_logging (pf : platform) (debug : bool) : W unit :=
  let level := if debug then LOG_DEBUG else LOG_INFO in
  (if root_has_handlers pf then wret tt else set_level "root" level);+
  if debug then
    set_level "uvicorn" LOG_DEBUG;+
    set_level "uvicorn.error" LOG_DEBUG;+
    set_level "uvicorn.access" LOG_DEBUG
  else wret tt.

(** [main()]: ends with the call of [uvicorn.run].  [h] is the world that
    [ensure_cert] meets, [h_banner] the one that [show_startup_info] meets
    afterwards. *)
Definition main (pf : platform) (h h_banner : host) : W unit :=
  let runtime_base := get_runtime_base pf in
  prepare_env_paths pf runtime_base;+
  sys_path_insert (path_str runtime_base);+
  load_dotenv pf (path_join runtime_base ".env");+
  let+ (port, debug) := lift_M validate_config in
  let+ host_name := lift_M (getenv_default "HOST" "0.0.0.0") in
  let+ http2_env := lift_M (getenv "UVICORN_HTTP2") in
  let enable_http2 := parse_bool http2_env true in
  configure_logging pf debug;+
  let+ (ssl_config, protocol) := lift_M (ensure_cert h runtime_base) in
  show_startup_info h_banner runtime_base protocol host_name port;+
  let uvicorn_cfg :=
    build_uvicorn_config port host_name ssl_config enable_http2 debug in
  wfor [SIGINT; SIGTERM]
    (λ sig, wtry (install_handler pf sig)
              (λ i, match i with
                    | Exception _ => Some (wret tt)
                    | _ => None
                    end));+
  uvicorn_run pf uvicorn_cfg.

End launcher1.

(** ** launcher.py *)

Module launcher.

(** The argument of [int(os.getenv("PORT", 8888))]: a string from the
    environment or the integer default. *)
Inductive str_or_int :=
  | Str (s : string)
  | Int (n : Z).

Definition int (v : str_or_int) : result Z :=
  match v with
  | Str s => Py.int s
  | Int n => Ok n
  end.

(** [validate_config()]: returns [(port, debug_mode)]. *)
Definition validate_config : M (Z * bool) :=
  let* port :=
    try_except
      (let* v := getenv "PORT" in
       let* port := lift (int (from_option Str (Int 8888) v)) in
       if negb ((1 <=? port) && (port <=? 65535))
       then raise (ValueError (OutOfRange port))
       else ret port)
      (λ e, match e with
            | ValueError e =>
                Some (print (InvalidPort e);;
                      let port := 8888 in
                      print (UsingDefaultPort port);;
                      ret port)
            | _ => None
            end) in
  let* api_pw := getenv "API_PASSWORD" in
  when (bool_decide (api_pw = Some "changeme"))
       (print DefaultApiPassword;; print DefaultApiPasswordAdvice);;
  let* debug_env := getenv_default "DEBUG" "false" in
  let debug_mode := bool_decide (Py.lower debug_env = "true") in
  when debug_mode
    (print DebugEnabled;;
     print (DebugApiPassword (default_to "None" api_pw));;
     print (DebugPort port));;
  ret (port, debug_mode).

(** [validate_config()] once more, with the [print] that can fail. *)
Definition validate_config_with (fl : faults) : M (Z * bool) :=
  let* port :=
    try_except
      (let* v := getenv "PORT" in
       let* port := lift (int (from_option Str (Int 8888) v)) in
       if negb ((1 <=? port) && (port <=? 65535))
       then raise (ValueError (OutOfRange port))
       else ret port)
      (λ e, match e with
            | ValueError e =>
                Some (print_on fl (InvalidPort e);;
                      let port := 8888 in
                      print_on fl (UsingDefaultPort port);;
                      ret port)
            | _ => None
            end) in
  let* api_pw := getenv "API_PASSWORD" in
  when (bool_decide (api_pw = Some "changeme"))
       (print_on fl DefaultApiPassword;;
        print_on fl DefaultApiPasswordAdvice);;
  let* debug_env := getenv_default "DEBUG" "false" in
  let debug_mode := bool_decide (Py.lower debug_env = "true") in
  when debug_mode
    (print_on fl DebugEnabled;;
     print_on fl (DebugApiPassword (default_to "None" api_pw));;
     print_on fl (DebugPort port));;
  ret (port, debug_mode).

(** The dictionary [defaults] of [setup_environment], in its order. *)
Definition defaults : list (string * string) :=
  [("API_PASSWORD", "changeme");
   ("PORT", "8888");
   ("DEBUG", "false");
   ("ENABLE_STREAMING_PROGRESS", "false");
   ("DISABLE_HOME_PAGE", "false");
   ("DISABLE_DOCS", "false");
   ("DISABLE_SPEEDTEST", "false")].

(** [os.environ.setdefault(key, value)] *)
Definition setdefault (key value : string) : W unit :=
  λ s, match os_environ s !! key with
       | Some _ => (Done tt, s)
       | None => putenv key value s
       end.

(** The base path of both [setup_environment] and [run]. *)
Definition base_path_of (pf : platform) : Path :=
  if frozen pf then executable_dir pf else script_dir pf.

(** [setup_environment()]: returns the base path. *)
Definition setup_environment (pf : platform) : W Path :=
  import_or_raise (import_dotenv pf);+
  let base_path := base_path_of pf in
  let dotenv_path := path_join base_path ".env" in
  let+ there := path_visible pf dotenv_path in
  (if there then
     load_dotenv pf dotenv_path;+
     say (LoadedConfiguration dotenv_path)
   else say (NoEnvFile dotenv_path));+
  wfor defaults (λ '(key, default_value), setdefault key default_value);+
  wret base_path.

(** [show_startup_info(base_path, port)] *)
Definition show_startup_info (pf : platform) (base_path : Path) (port : Z)
  : W unit :=
  say (Rule "=" 50);+
  say Title;+
  say (Rule "=" 50);+
  say (WorkingDirectory base_path);+
  (if frozen pf then say RunningStandalone else say RunningAsScript);+
  wfor [".env"]
    (λ filename,
       let+ there := path_visible pf (path_join base_path filename) in
       if there then say (Found filename) else say (Missing filename));+
  say (Rule "-" 50).

(** [run], lines 126-137: the [for] loop over [cert_combinations] with
    its [else] clause. *)
Fixpoint detect_certificates (pf : platform) (base_path : Path)
    (cert_combinations : list (string * string))
  : W (gmap string pyvalue * string) :=
  match cert_combinations with
  | [] =>
      say NoSslCertificates;+
      wret (∅, "HTTP")
  | (cert_name, key_name) :: rest =>
      let cert_file := path_join base_path cert_name in
      let key_file := path_join base_path key_name in
      let+ cert_there := path_visible pf cert_file in
      let+ key_there :=
        if cert_there then path_visible pf key_file else wret false in
      if key_there then
        say (SslEnabled cert_name key_name);+
        wret (<["ssl_keyfile" := PStr (path_str key_file)]>
                (<["ssl_certfile" := PStr (path_str cert_file)]> ∅),
              "HTTPS")
      else detect_certificates pf base_path rest
  end.

(** [os.getenv(name, "false").lower() == "true"] *)
Definition env_flag (name : string) : W bool :=
  let+ v := lift_M (getenv_default name "false") in
  wret (bool_decide (Py.lower v = "true")).

(** [run()]; [app_target], the imported application, is the positional
    argument of [uvicorn.run] and no entry of the keyword arguments. *)
Definition run (pf : platform) : W unit :=
  wtry
    (import_or_raise (import_uvicorn pf);+
     wtry
       (import_or_raise (install_uvloop pf);+
        say UvloopActivated)
       (λ i, match i with
             | Exception ImportError => Some (say UvloopUnavailable)
             | _ => None
             end);+
     wtry
       (import_or_raise (import_app pf))
       (λ i, match i with
             | Exception ImportError =>
                 Some (say (AppImportFailed ImportError);+
                       say AppImportAdvice;+
                       wstop (SystemExit 1))
             | _ => None
             end);+
     let base_path := base_path_of pf in
     let+ (port, debug_mode) := lift_M validate_config in
     let is_frozen := frozen pf in
     let+ (ssl_args, protocol) :=
       detect_certificates pf base_path
         [("cert.pem", "key.pem"); ("fullchain.pem", "privkey.pem")] in
     let num_workers := 1 in
     let reload_mode := if is_frozen then false else debug_mode in
     say (StartingWorkers num_workers);+
     say (ServerAvailable (Py.lower protocol) port);+
     say (ApiDocumentation (Py.lower protocol) port);+
     say (HomePage (Py.lower protocol) port);+
     let+ no_speedtest := env_flag "DISABLE_SPEEDTEST" in
     (if negb no_speedtest then say (SpeedTest (Py.lower protocol) port)
      else wret tt);+
     say PressCtrlC;+
     say (Rule "-" 50);+
     uvicorn_run pf
       (ssl_args
        ∪ list_to_map
            [("host", PStr "0.0.0.0");
             ("port", PInt port);
             ("reload", PBool reload_mode);
             ("log_level", PStr (if negb debug_mode then "info"
                                 else "debug"));
             ("access_log", PBool debug_mode)]))
    (λ i, match i with
          | KeyboardInterrupt => Some (say ServerStopped)
          | Exception e =>
              Some (say (ErrorStarting e);+
                    let+ debug := env_flag "DEBUG" in
                    (if debug then say Traceback else wret tt);+
                    wstop (SystemExit 1))
          | SystemExit _ => None
          end).

(** [main()] *)
Definition main (pf : platform) : W unit :=
  let+ base_path := setup_environment pf in
  let+ (port, debug_mode) := lift_M validate_config in
  (if debug_mode then say (BasePath base_path) else wret tt);+
  show_startup_info pf base_path port;+
  run pf.

End launcher.

(** ** Vocabulary of the statements *)

(** The process after printing [out]. *)
Definition emit (p : process) (out : list line) : process :=
  Process (environ p) (disk p) (stdout p ++ out).

(** *** Booleans *)

Definition truthy_words : list string := ["1"; "true"; "yes"; "on"].

(** Equality of strings up to the case of their letters. *)
Fixpoint eq_ignore_case (a b : string) : bool :=
  match a, b with
  | EmptyString, EmptyString => true
  | String c a', String d b' =>
      bool_decide (Py.lower_char c = Py.lower_char d) && eq_ignore_case a' b'
  | _, _ => false
  end.

(** [v] is [w] up to case, between two runs of white space. *)
Definition reads_as (v w : string) : Prop :=
  ∃ l core r, v = l +:+ core +:+ r
    ∧ Py.all_chars Py.isspace l = true
    ∧ Py.all_chars Py.isspace r = true
    ∧ eq_ignore_case core w = true.

(** *** Ports *)

Definition in_port_range (n : Z) : bool := (1 <=? n) && (n <=? 65535).

(** The port that the value of [PORT] stands for. *)
Definition resolved_port (port_env : option string) : Z :=
  match port_env with
  | None => 8888
  | Some s =>
      match Py.int s with
      | Ok n => if in_port_range n then n else 8888
      | Raise _ => 8888
      end
  end.

(** The lines printed about the value of [PORT]. *)
Definition port_warning (port_env : option string) : list line :=
  match port_env with
  | None => []
  | Some s =>
      match Py.int s with
      | Ok n =>
          if in_port_range n then []
          else [InvalidPort (OutOfRange n); UsingDefaultPort 8888]
      | Raise (ValueError e) => [InvalidPort e; UsingDefaultPort 8888]
      | Raise _ => []
      end
  end.

(** [str(n)]: the decimal numeral of an integer. *)
Definition str (n : Z) : string := NilZero.string_of_int (Z.to_int n).

Definition reads_back (n : Z) : bool :=
  match Py.int (str n) with
  | Ok m => m =? n
  | Raise _ => false
  end.

(** [test n && test (n + 1) && ...], [count] times. *)
Fixpoint all_from (n : Z) (count : nat) (test : Z → bool) : bool :=
  match count with
  | O => true
  | S count' => test n && all_from (n + 1) count' test
  end.

Definition no_error (o : option exn) : bool :=
  match o with None => true | Some _ => false end.

(** *** Addresses *)

Definition seeds : list general_name :=
  [DNSName "localhost"; IPAddress (IPv4 2130706433); IPAddress (IPv6 1 None)].

Definition valid_ipv4 (ip : string) : bool :=
  match Py.IPv4Address ip with Ok _ => true | Raise _ => false end.

(** An IP literal is one that [ipaddress.ip_address] accepts. *)
Definition is_ip_literal (ip : string) : bool :=
  valid_ipv4 ip
  || match Py.IPv6Address ip with Ok _ => true | Raise _ => false end.

(** The subject alternative names of the strings that are IPv4 literals. *)
Fixpoint ip_sans (ips : list string) : list general_name :=
  match ips with
  | [] => []
  | ip :: ips' =>
      match Py.IPv4Address ip with
      | Ok a => IPAddress (IPv4 a) :: ip_sans ips'
      | Raise _ => ip_sans ips'
      end
  end.

(** The entries of [CERT_ADDITIONAL_IPS]: split on commas, stripped, the
    blank ones dropped. *)
Definition custom_entries (env : gmap string string) : list string :=
  List.filter Py.truthy
    (Py.strip <$> Py.split "," (Py.strip (default_to "" (env !! "CERT_ADDITIONAL_IPS")))).

Definition malformed (entries : list string) : list string :=
  List.filter (λ ip, negb (valid_ipv4 ip)) entries.

Definition well_formed (entries : list string) : list string :=
  List.filter valid_ipv4 entries.

(** The address that the host name resolves to, when it is detected. *)
Definition hostname_ip (h : host) : list string :=
  match gethostname h with
  | Ok name =>
      match gethostbyname h name with
      | Ok ip =>
          if bool_decide (ip = "127.0.0.1") then []
          else if valid_ipv4 ip then [ip] else []
      | Raise _ => []
      end
  | Raise _ => []
  end.

(** The source address of the default route, when it is detected. *)
Definition primary_ip (h : host) (detected : list string) : list string :=
  match udp_source_address h "8.8.8.8" 80 with
  | Ok ip =>
      if bool_decide (ip ∈ "127.0.0.1" :: detected) then []
      else if valid_ipv4 ip then [ip] else []
  | Raise _ => []
  end.

Definition network_ips (h : host) : list string :=
  hostname_ip h ++ primary_ip h (hostname_ip h).

(** The subject alternative names that [ensure_cert] gives a new
    certificate on host [h] with environment [env]. *)
Definition san_list_of (h : host) (env : gmap string string)
  : list general_name :=
  seeds ++ ip_sans (network_ips h)
        ++ ip_sans (well_formed (custom_entries env)).

Definition detected_ips_of (h : host) (env : gmap string string)
  : list string :=
  network_ips h ++ well_formed (custom_entries env).

(** *** Octets *)

Definition digit_chars : list ascii :=
  ["0"; "1"; "2"; "3"; "4"; "5"; "6"; "7"; "8"; "9"]%char.

(** The strings of one to three digits. *)
Definition digit_strings : list string :=
  let one := (λ c, String c EmptyString) <$> digit_chars in
  let more := λ l, c ← digit_chars; (String c <$> l) in
  one ++ more one ++ more (more one).

(** An octet that [parse_octet] accepts is the numeral of its value. *)
Definition octet_is_numeral (o : string) : bool :=
  match Py.parse_octet o with
  | Ok v => (0 <=? v) && (v <=? 255) && bool_decide (o = str v)
  | Raise _ => true
  end.

(** The dotted quad of four octets. *)
Definition dotted_quad (a b c d : Z) : string :=
  String.concat "." [str a; str b; str c; str d].

(** *** Certificate files *)

(** The key and the signed certificate, when the [cryptography] package
    delivers them. *)
Definition signed_certificate (h : host) (env : gmap string string)
  : option (rsa_private_key * certificate) :=
  if no_error (import_cryptography h) then
    match generate_private_key h 65537 2048 with
    | Ok key =>
        let builder := launcher1.self_signed h key (san_list_of h env) in
        match rsa_sign h key SHA256 builder with
        | Ok sig => Some (key, Certificate builder SHA256 sig)
        | Raise _ => None
        end
    | Raise _ => None
    end
  else None.

(** Both files can be opened and written. *)
Definition can_persist (h : host) (cert_file key_file : Path) : bool :=
  no_error (open_error h cert_file) && no_error (write_error h cert_file)
  && no_error (open_error h key_file) && no_error (write_error h key_file).

(** The process after a successful generation. *)
Definition persisted (h : host) (p : process) (cert_file key_file : Path)
    (key : rsa_private_key) (cert : certificate) : process :=
  Process (environ p)
    (<[key_file := pem "PRIVATE KEY" (key_pkcs8_base64 h key)]>
       (<[cert_file := pem "CERTIFICATE" (cert_base64 h cert)]> (disk p)))
    (stdout p
     ++ (InvalidCustomIP <$> malformed (custom_entries (environ p)))
     ++ [GeneratedCert cert_file key_file]
     ++ (if bool_decide (detected_ips_of h (environ p) = []) then []
         else [CertIncludes (detected_ips_of h (environ p))])).

Definition cert_path (cert_base : Path) : Path :=
  path_join (path_join cert_base "bin") "server.pem".

Definition key_path (cert_base : Path) : Path :=
  path_join (path_join cert_base "bin") "server.key".

(** Both files are on the disk, [stat] answers for both, and neither is
    empty. *)
Definition usable (h : host) (p : process) (cert_file key_file : Path) : bool :=
  match disk p !! cert_file, disk p !! key_file with
  | Some cert, Some key =>
      no_error (stat_error h cert_file) && negb (length cert =? 0)%nat
      && no_error (stat_error h key_file) && negb (length key =? 0)%nat
  | _, _ => false
  end.

(** What is printed when the files are there and [stat] fails. *)
Definition stat_complaint (h : host) (p : process) (cert_file key_file : Path)
  : list line :=
  match disk p !! cert_file, disk p !! key_file with
  | Some cert, Some _ =>
      match stat_error h cert_file with
      | Some e => [ErrorReadingCerts e]
      | None =>
          if (length cert =? 0)%nat then []
          else match stat_error h key_file with
               | Some e => [ErrorReadingCerts e]
               | None => []
               end
      end
  | _, _ => []
  end.

(** HTTPS is not disabled in the environment of [p]. *)
Definition https_enabled (p : process) : Prop :=
  launcher1.parse_bool (environ p !! "DISABLE_HTTPS") false = false.

(** *** What [validate_config] prints after the port *)

(** A password that is set and not empty. *)
Definition password_given (api_pw : option string) : bool :=
  Py.truthy (default_to "" api_pw).

(** The lines of [launcher1.validate_config] about the password. *)
Definition password_warning (api_pw : option string) : list line :=
  if negb (password_given api_pw) then [ApiPasswordNotSet]
  else if bool_decide (api_pw = Some "changeme") then [DefaultApiPassword]
  else [].

(** The three lines of the debug mode. *)
Definition debug_report (debug : bool) (shown : string) (port : Z)
  : list line :=
  if debug then [DebugEnabled; DebugApiPassword shown; DebugPort port] else [].

(** *** Prints that can fail *)

(** Printing [lines] in order and then returning [a]: the first line that
    [print] refuses ends the computation with its exception, after the
    lines before it were printed. *)
Fixpoint attempt {A} (fl : faults) (p : process) (lines : list line) (a : A)
  : result A * process :=
  match lines with
  | [] => (Ok a, p)
  | l :: rest =>
      match print_error fl l with
      | Some e => (Raise e, p)
      | None => attempt fl (emit p [l]) rest a
      end
  end.

(** Every call succeeds. *)
Definition no_faults : faults :=
  {| print_error := λ _, None; exists_error := λ _, None |}.

(** The lines whose text is not ASCII: all but two of the messages start
    with an emoji. *)
Definition non_ascii (l : line) : bool :=
  match l with
  | DefaultApiPasswordAdvice => false
  | CertIncludes _ => false
  | _ => true
  end.

(** A console whose encoding is ASCII ([PYTHONIOENCODING=ascii], or the C
    locale). *)
Definition ascii_console : faults :=
  {| print_error := λ l, if non_ascii l
                         then Some (ValueError (UnicodeEncodeError "ascii"))
                         else None;
     exists_error := λ _, None |}.

(** *** Sample hosts and processes *)

(** A host on which every call succeeds. *)
Definition sample_host : host :=
  {| mkdir := λ _, None;
     stat_error := λ _, None;
     open_error := λ _, None;
     write_error := λ _, None;
     import_cryptography := None;
     generate_private_key := λ e bits, Ok (RSAKey e bits 3233 2753);
     gethostname := Ok "media-box";
     gethostbyname := λ _, Ok "192.168.1.5";
     udp_source_address := λ _ _, Ok "10.0.0.7";
     utcnow := 1700000000;
     random_serial_number := 42;
     rsa_sign := λ _ _ _, Ok [Byte.x01];
     cert_base64 := λ _, [Byte.x41];
     key_pkcs8_base64 := λ _, [Byte.x42] |}.

(** The same host without a network. *)
Definition offline_host : host :=
  {| mkdir := mkdir sample_host;
     stat_error := stat_error sample_host;
     open_error := open_error sample_host;
     write_error := write_error sample_host;
     import_cryptography := None;
     generate_private_key := generate_private_key sample_host;
     gethostname := Ok "media-box";
     gethostbyname := λ _, Raise (OSError "Name or service not known");
     udp_source_address := λ _ _, Raise (OSError "Network is unreachable");
     utcnow := 1700000000;
     random_serial_number := 42;
     rsa_sign := rsa_sign sample_host;
     cert_base64 := cert_base64 sample_host;
     key_pkcs8_base64 := key_pkcs8_base64 sample_host |}.

(** The same host with a base directory that cannot be written. *)
Definition read_only_host : host :=
  {| mkdir := λ _, Some (OSError "Permission denied");
     stat_error := stat_error sample_host;
     open_error := λ _, Some (OSError "Permission denied");
     write_error := write_error sample_host;
     import_cryptography := None;
     generate_private_key := generate_private_key sample_host;
     gethostname := gethostname sample_host;
     gethostbyname := gethostbyname sample_host;
     udp_source_address := udp_source_address sample_host;
     utcnow := 1700000000;
     random_serial_number := 42;
     rsa_sign := rsa_sign sample_host;
     cert_base64 := cert_base64 sample_host;
     key_pkcs8_base64 := key_pkcs8_base64 sample_host |}.

Definition srv : Path := ["srv"; "mediaflow"].

(** A process with the given environment, an empty disk and nothing
    printed. *)
Definition fresh (env : list (string * string)) : process :=
  Process (list_to_map env) ∅ [].

(** A process whose disk holds a certificate and a key. *)
Definition provisioned (env : list (string * string)) : process :=
  Process (list_to_map env)
    (<[cert_path srv := [Byte.x41]]> (<[key_path srv := [Byte.x42]]> ∅)) [].

(** A directory [bin] that is there and cannot be searched: [stat] of the
    files below it fails with EACCES, and [exists] raises what [stat]
    raised. *)
Definition unsearchable_bin : faults :=
  {| print_error := λ _, None;
     exists_error := λ f, if bool_decide (f = cert_path srv)
                             || bool_decide (f = key_path srv)
                          then Some (OSError "Permission denied")
                          else None |}.

(** *** What [validate_config] prints *)

(** The lines of [launcher.validate_config] about the password. *)
Definition default_password_warning (api_pw : option string) : list line :=
  if bool_decide (api_pw = Some "changeme")
  then [DefaultApiPassword; DefaultApiPasswordAdvice]
  else [].

(** [DEBUG] as [launcher.py] reads it. *)
Definition debug_mode_of (env : gmap string string) : bool :=
  bool_decide (Py.lower (default_to "false" (env !! "DEBUG")) = "true").

(** [str n] is read by the digit loop of [int] to its end, as [n]. *)
Definition scans_back (n : Z) : bool :=
  match str n with
  | String c _ =>
      Py.isdigit c
      && match Py.scan_digits false 0 0 (str n) with
         | Some (v, digits, EmptyString) => (v =? n) && (digits <=? 5)%nat
                                            && negb (digits =? 0)%nat
         | _ => false
         end
  | EmptyString => false
  end.

(** *** Sessions *)

(** The session after printing [out]. *)
Definition tell (s : session) (out : list notice) : session :=
  Session (os_environ s) (files s) (console s ++ out) (logger_levels s)
          (sys_path s) (signal_handlers s) (uvicorn_calls s).

(** The process that [validate_config] and [ensure_cert] start from in a
    session. *)
Definition process_of (s : session) : process :=
  Process (os_environ s) (files s) [].

(** [f.exists()] in a session. *)
Definition visible (pf : platform) (s : session) (f : Path) : bool :=
  is_directory pf f
  || match files s !! f with Some _ => true | None => false end.

(** What python-dotenv reads at [dotenv_path]: nothing when there is no
    such file. *)
Definition dotenv_read (pf : platform) (dotenv_path : Path)
    (env : gmap string string) (contents : gmap Path (list Byte.byte))
  : result (gmap string (option string)) :=
  match contents !! dotenv_path with
  | None => Ok ∅
  | Some text => dotenv_values pf env text
  end.

(** The value that a key has in the file, when it has one. *)
Definition dotenv_value (values : gmap string (option string)) (key : string)
  : option string :=
  match values !! key with
  | Some (Some v) => Some v
  | _ => None
  end.

(** The first of two settings that is there. *)
Definition or_else (a b : option string) : option string :=
  match a with
  | Some v => Some v
  | None => b
  end.

(** [os.environ] after [prepare_env_paths]. *)
Definition path_prefixed (pf : platform) (base_path : Path) (s : session)
  : gmap string string :=
  if visible pf s (path_join base_path "bin")
  then <["PATH" := path_str (path_join base_path "bin") +:+ pathsep pf
                   +:+ default_to "" (os_environ s !! "PATH")]> (os_environ s)
  else os_environ s.

(** The levels after [configure_logging]. *)
Definition logging_levels (pf : platform) (debug : bool)
    (levels : gmap string log_level) : gmap string log_level :=
  let root := if root_has_handlers pf then levels
              else <["root" := if debug then LOG_DEBUG else LOG_INFO]> levels in
  if debug
  then <["uvicorn.access" := LOG_DEBUG]>
         (<["uvicorn.error" := LOG_DEBUG]> (<["uvicorn" := LOG_DEBUG]> root))
  else root.

(** The address that the host name resolves to. *)
Definition resolves (h : host) : option string :=
  match gethostname h with
  | Ok name =>
      match gethostbyname h name with
      | Ok ip => Some ip
      | Raise _ => None
      end
  | Raise _ => None
  end.

(** The banner of [launcher1.show_startup_info]. *)
Definition banner (h : host) (base_path : Path) (protocol host_name : string)
    (port : Z) : list notice :=
  [Rule "=" 50; Title; Rule "=" 50; WorkingDirectory base_path;
   ServingOn protocol host_name port]
  ++ (if bool_decide (host_name ∈ ["0.0.0.0"; "::"])
      then LocalUrl protocol port
           :: match resolves h with
              | Some local_ip => [NetworkUrl protocol local_ip port]
              | None => []
              end
      else [])
  ++ [Rule "=" 50].

(** The signals whose handler can be registered. *)
Definition registered (pf : platform) : list signum :=
  List.filter (λ sig, no_error (signal_error pf sig)) [SIGINT; SIGTERM].

(** The platform with other answers of [signal.signal]. *)
Definition with_signal_error (pf : platform) (f : signum → option exn)
  : platform :=
  {| frozen := frozen pf;
     executable_dir := executable_dir pf;
     script_dir := script_dir pf;
     pathsep := pathsep pf;
     is_directory := is_directory pf;
     dotenv_values := dotenv_values pf;
     root_has_handlers := root_has_handlers pf;
     import_dotenv := import_dotenv pf;
     import_uvicorn := import_uvicorn pf;
     install_uvloop := install_uvloop pf;
     import_app := import_app pf;
     signal_error := f;
     serving_ends := serving_ends pf |}.

(** *** Certificate files of [launcher.py] *)

Definition cert_combinations : list (string * string) :=
  [("cert.pem", "key.pem"); ("fullchain.pem", "privkey.pem")].

Definition both_visible (pf : platform) (s : session) (base_path : Path)
    (pair : string * string) : bool :=
  visible pf s (path_join base_path pair.1)
  && visible pf s (path_join base_path pair.2).

(** The keyword arguments of a pair of files. *)
Definition ssl_args_of (base_path : Path) (found : option (string * string))
  : gmap string pyvalue :=
  match found with
  | Some (cert_name, key_name) =>
      <["ssl_keyfile" := PStr (path_str (path_join base_path key_name))]>
        (<["ssl_certfile" := PStr (path_str (path_join base_path cert_name))]> ∅)
  | None => ∅
  end.

(** How [launcher.run] ends when [uvicorn.run] ends with [o]. *)
Definition run_ends (o : outcome unit) : outcome unit :=
  match o with
  | Done _ => Done tt
  | Stop KeyboardInterrupt => Done tt
  | Stop (Exception _) => Stop (SystemExit 1)
  | Stop (SystemExit code) => Stop (SystemExit code)
  end.

(** *** Sample platforms and sessions *)

(** A script started from [srv], with every package installed. *)
Definition sample_platform : platform :=
  {| frozen := false;
     executable_dir := ["usr"; "bin"];
     script_dir := srv;
     pathsep := ":";
     is_directory := λ _, false;
     dotenv_values := λ _ _, Ok (<["PORT" := Some "9000"]>
                                   (<["API_PASSWORD" := None]> ∅));
     root_has_handlers := false;
     import_dotenv := None;
     import_uvicorn := None;
     install_uvloop := Some ImportError;
     import_app := None;
     signal_error := λ _, Some (ValueError (InvalidLiteral "signal"));
     serving_ends := λ _, Stop KeyboardInterrupt |}.

(** The same platform without the application package. *)
Definition broken_platform : platform :=
  {| frozen := false;
     executable_dir := ["usr"; "bin"];
     script_dir := srv;
     pathsep := ":";
     is_directory := λ _, false;
     dotenv_values := dotenv_values sample_platform;
     root_has_handlers := false;
     import_dotenv := None;
     import_uvicorn := None;
     install_uvloop := None;
     import_app := Some ImportError;
     signal_error := λ _, None;
     serving_ends := λ _, Done tt |}.

(** A session with the given environment and files, before anything
    happened. *)
Definition session_of (env : list (string * string))
    (contents : list (Path * list Byte.byte)) : session :=
  Session (list_to_map env) (list_to_map contents) [] ∅ [] [] [].

(** *** Files after a generation *)

(** The disk that [generate] leaves: nothing is written before the
    certificate is signed, opening a file truncates it, and the key is
    written after the certificate. *)
Definition disk_after_generate (h : host) (env : gmap string string)
    (cert_file key_file : Path) (dsk : gmap Path (list Byte.byte))
  : gmap Path (list Byte.byte) :=
  match signed_certificate h env with
  | None => dsk
  | Some (key, cert) =>
      match open_error h cert_file, write_error h cert_file with
      | Some _, _ => dsk
      | None, Some _ => <[cert_file := []]> dsk
      | None, None =>
          let dsk' := <[cert_file := pem "CERTIFICATE" (cert_base64 h cert)]> dsk in
          match open_error h key_file, write_error h key_file with
          | Some _, _ => dsk'
          | None, Some _ => <[key_file := []]> dsk'
          | None, None =>
              <[key_file := pem "PRIVATE KEY" (key_pkcs8_base64 h key)]> dsk'
          end
      end
  end.

(** A host on which the key file cannot be opened for writing. *)
Definition locked_key_host : host :=
  {| mkdir := mkdir sample_host;
     stat_error := stat_error sample_host;
     open_error := λ f, if bool_decide (f = key_path srv)
                        then Some (OSError "Permission denied") else None;
     write_error := write_error sample_host;
     import_cryptography := None;
     generate_private_key := generate_private_key sample_host;
     gethostname := gethostname sample_host;
     gethostbyname := gethostbyname sample_host;
     udp_source_address := udp_source_address sample_host;
     utcnow := 1700000000;
     random_serial_number := 42;
     rsa_sign := rsa_sign sample_host;
     cert_base64 := cert_base64 sample_host;
     key_pkcs8_base64 := key_pkcs8_base64 sample_host |}.

(** A process whose disk holds a key and an empty certificate. *)
Definition half_provisioned (env : list (string * string)) : process :=
  Process (list_to_map env)
    (<[cert_path srv := []]> (<[key_path srv := [Byte.x42]]> ∅)) [].

(** A session started with [PORT] set, beside a [.env] file. *)
Definition sample_session : session :=
  session_of [("PORT", "7000")] [(path_join srv ".env", [Byte.x41])].

(** The default of a key in [launcher.setup_environment]. *)
Definition default_setting (key : string) : option string :=
  (list_to_map launcher.defaults : gmap string string) !! key.

(** A computation that leaves the environment and the files alone, and
    only adds lines to the console and calls to the record of
    [uvicorn.run]. *)
Definition only_prints {A} (m : W A) : Prop :=
  ∀ s, os_environ (m s).2 = os_environ s
       ∧ files (m s).2 = files s
       ∧ (∃ out, console (m s).2 = console s ++ out)
       ∧ ∃ calls, uvicorn_calls (m s).2 = uvicorn_calls s ++ calls.

(** The keyword arguments of [uvicorn.run] in [launcher.run]. *)
Definition run_arguments (pf : platform) (s : session)
  : gmap string pyvalue :=
  let debug_mode := debug_mode_of (os_environ s) in
  ssl_args_of (launcher.base_path_of pf)
    (List.find (both_visible pf s (launcher.base_path_of pf)) cert_combinations)
  ∪ list_to_map
      [("host", PStr "0.0.0.0");
       ("port", PInt (resolved_port (os_environ s !! "PORT")));
       ("reload", PBool (negb (frozen pf) && debug_mode));
       ("log_level", PStr (if debug_mode then "debug" else "info"));
       ("access_log", PBool debug_mode)].

(** A computation that leaves the environment alone, changes no file
    outside [touched], and only adds lines to what was printed. *)
Definition confined (touched : list Path) {A} (m : M A) : Prop :=
  ∀ p, environ (m p).2 = environ p
       ∧ (∀ f, f ∉ touched → disk (m p).2 !! f = disk p !! f)
       ∧ ∃ out, stdout (m p).2 = stdout p ++ out.

(** *** Proof automation *)

Ltac run :=
  repeat (progress (unfold when, raise_if_failed, bind, try_except, getenv_default,
                      getenv, lift, raise, ret, print, emit in *; simpl in *)).

Ltac no_such_line :=
  let H := fresh in
  intros ? H;
  repeat (apply elem_of_cons in H as [?|H]; [discriminate|]);
  by apply elem_of_nil in H.

Ltac settle :=
  repeat (case_match; run; simplify_eq/=); rewrite <- ?app_assoc; simpl;
  eexists _, _;
  (split; [first [reflexivity | repeat f_equal; symmetry; apply app_nil_r]
          | no_such_line]).

Ltac handled e :=
  destruct e; run; eexists; reflexivity.

Ltac each_char c :=
  destruct c as [[] [] [] [] [] [] [] []]; vm_compute;
  try reflexivity; try discriminate.

(** A line that is none of those listed. *)
Ltac not_listed :=
  let H := fresh in
  intros H;
  repeat (apply elem_of_cons in H as [?|H]; [discriminate|]);
  by apply elem_of_nil in H.

(** One step of a computation in a session. *)
Ltac wrun :=
  repeat (progress (unfold wbind, wret, wstop, wtry, say, putenv, set_level,
                      sys_path_insert, import_or_raise, of_result,
                      path_visible, uvicorn_run, tell, process_of, visible
                      in *; simpl in *)).

(** ** Strings *)

Section Strings.
Import Py.

Lemma lower_char_idem c : lower_char (lower_char c) = lower_char c.
Proof. each_char c. Qed.

Lemma isspace_lower_char c : isspace (lower_char c) = isspace c.
Proof. each_char c. Qed.

Lemma eq_ignore_case_lower s : eq_ignore_case s (lower s) = true.
Proof.
  induction s as [|c s IH]; simpl; [done|].
  rewrite lower_char_idem, bool_decide_eq_true_2 by done. done.
Qed.

Lemma eq_ignore_case_eq a b : eq_ignore_case a b = true → lower a = lower b.
Proof.
  revert b; induction a as [|c a IH]; intros [|d b]; simpl; try done.
  intros [Hc Hab]%andb_prop. apply bool_decide_eq_true in Hc.
  by rewrite Hc, (IH b).
Qed.

Lemma append_cons c s t : String c s +:+ t = String c (s +:+ t).
Proof. reflexivity. Qed.

Lemma append_nil t : "" +:+ t = t.
Proof. reflexivity. Qed.

Lemma lstrip_split s : ∃ l, s = l +:+ lstrip s ∧ all_chars isspace l = true.
Proof.
  induction s as [|c s (l & Hs & Hl)]; simpl.
  - by exists "".
  - destruct (isspace c) eqn:Hc.
    + exists (String c l). simpl. rewrite Hc, Hl.
      split; [exact (f_equal (String c) Hs)|done].
    + by exists "".
Qed.

Lemma rstrip_split s : ∃ r, s = rstrip s +:+ r ∧ all_chars isspace r = true.
Proof.
  induction s as [|c s (r & Hs & Hr)]; simpl.
  - by exists "".
  - destruct (rstrip s) as [|d t] eqn:Ht.
    + destruct (isspace c) eqn:Hc.
      * exists (String c r). simpl. rewrite Hc, Hr. split; [|done].
        replace s with r by (by rewrite Hs). done.
      * exists r. split; [|done]. exact (f_equal (String c) Hs).
    + exists r. split; [|done]. exact (f_equal (String c) Hs).
Qed.

Lemma lstrip_app_space l t :
  all_chars isspace l = true → lstrip (l +:+ t) = lstrip t.
Proof.
  induction l as [|c l IH]; simpl; [done|].
  intros [Hc Hl]%andb_prop. rewrite ?append_cons. simpl. rewrite Hc. auto.
Qed.

Lemma rstrip_space r : all_chars isspace r = true → rstrip r = "".
Proof.
  induction r as [|c r IH]; simpl; [done|].
  intros [Hc Hl]%andb_prop. by rewrite IH, Hc.
Qed.

Lemma rstrip_cons c t :
  rstrip (String c t)
  = if truthy (rstrip t) || negb (isspace c) then String c (rstrip t) else "".
Proof. simpl. destruct (rstrip t); simpl; by destruct (isspace c). Qed.

Lemma word_not_space c d :
  lower_char c = lower_char d → isspace d = false → isspace c = false.
Proof. intros H Hd. by rewrite <- isspace_lower_char, H, isspace_lower_char. Qed.

(** A core that reads as one of the words survives [strip]. *)
Lemma strip_word l core r w :
  w ∈ truthy_words →
  all_chars isspace l = true → all_chars isspace r = true →
  eq_ignore_case core w = true →
  strip (l +:+ core +:+ r) = core.
Proof.
  intros Hw Hl Hr Hcore. unfold strip. rewrite lstrip_app_space by done.
  unfold truthy_words in Hw.
  repeat (apply elem_of_cons in Hw as [-> | Hw]);
    [| | | |by apply elem_of_nil in Hw].
  all: repeat match goal with
       | H : eq_ignore_case ?s _ = true |- _ =>
           destruct s; simpl in H; [discriminate|];
           try (apply andb_prop in H as [?%bool_decide_eq_true H])
       end.
  all: destruct core; [|discriminate].
  all: repeat match goal with
       | H : lower_char ?c = lower_char _ |- _ =>
           apply word_not_space in H; [|reflexivity]
       end.
  all: rewrite ?append_cons, ?append_nil; cbn [lstrip];
       repeat match goal with H : isspace _ = false |- _ => rewrite H end.
  all: rewrite !rstrip_cons, (rstrip_space r Hr); simpl.
  all: repeat match goal with H : isspace _ = false |- _ => rewrite H end; simpl.
  all: reflexivity.
Qed.

Lemma int_raises_value_error s e : int s = Raise e → ∃ v, e = ValueError v.
Proof.
  unfold int. intros H.
  repeat case_match; simplify_eq; eauto.
Qed.

Lemma all_from_spec test count : ∀ n m,
  all_from n count test = true → n ≤ m < n + Z.of_nat count → test m = true.
Proof.
  induction count as [|count IH]; intros n m; simpl; [lia|].
  intros [Hn Hrest]%andb_prop Hm.
  destruct (decide (m = n)) as [->|]; [done|].
  apply (IH (n + 1)); [done|lia].
Qed.

Lemma ports_read_back : all_from 1 (Z.to_nat 65535) reads_back = true.
Proof. vm_compute. reflexivity. Qed.

(** The decimal numeral of a port reads back as that port. *)
Lemma int_str_port n : 1 ≤ n ≤ 65535 → int (str n) = Ok n.
Proof.
  intros Hn.
  pose proof (all_from_spec _ _ _ n ports_read_back) as Hall.
  unfold reads_back in Hall.
  destruct (int (str n)) as [m|e].
  - f_equal. apply Z.eqb_eq, Hall. lia.
  - discriminate Hall. lia.
Qed.
End Strings.

(** ** Configuration *)

Section Configuration.

Lemma launcher1_validate_config_run p :
  ∃ debug notes,
    launcher1.validate_config p
    = (Ok (resolved_port (environ p !! "PORT"), debug),
       emit p (port_warning (environ p !! "PORT") ++ notes))
    ∧ ∀ e, InvalidPort e ∉ notes.
Proof.
  destruct p as [env dsk out].
  unfold launcher1.validate_config, resolved_port, port_warning, in_port_range.
  run.
  destruct (env !! "PORT") as [s|]; simpl.
  - destruct (Py.int s) as [n|e] eqn:Hint; simpl.
    + destruct ((1 <=? n) && (n <=? 65535)); simpl; settle.
    + destruct (int_raises_value_error _ _ Hint) as [v ->]; simpl. settle.
  - change (Py.int "8888") with (@Ok Z 8888). simpl. settle.
Qed.

Lemma launcher_validate_config_run p :
  ∃ debug notes,
    launcher.validate_config p
    = (Ok (resolved_port (environ p !! "PORT"), debug),
       emit p (port_warning (environ p !! "PORT") ++ notes))
    ∧ ∀ e, InvalidPort e ∉ notes.
Proof.
  destruct p as [env dsk out].
  unfold launcher.validate_config, resolved_port, port_warning, in_port_range.
  run.
  destruct (env !! "PORT") as [s|]; simpl.
  - destruct (Py.int s) as [n|e] eqn:Hint; simpl.
    + destruct ((1 <=? n) && (n <=? 65535)); simpl; settle.
    + destruct (int_raises_value_error _ _ Hint) as [v ->]; simpl. settle.
  - settle.
Qed.

Lemma in_port_range_spec n : in_port_range n = true ↔ 1 ≤ n ≤ 65535.
Proof. unfold in_port_range. rewrite andb_true_iff, !Z.leb_le. done. Qed.
End Configuration.

(** ** IPv4 literals *)

Section IPv4.
Import Py.

Lemma split_not_nil sep s : split sep s ≠ [].
Proof. destruct s as [|c s]; simpl; [done|]. repeat case_match; done. Qed.

(** Joining what [split] returns gives the string back. *)
Lemma concat_split sep s :
  String.concat (String sep "") (split sep s) = s.
Proof.
  induction s as [|c s IH]; [done|]. simpl.
  destruct (decide (c = sep)) as [->|Hne].
  - pose proof (split_not_nil sep s).
    destruct (split sep s) as [|x xs] eqn:Hs; [done|].
    change (String.concat (String sep "") ("" :: x :: xs))
      with (String sep (String.concat (String sep "") (x :: xs))).
    by rewrite IH.
  - destruct (split sep s) as [|x xs] eqn:Hs; [by destruct (split_not_nil sep s)|].
    destruct xs as [|y ys]; simpl in *; by rewrite <- IH.
Qed.

Lemma isdigit_cases c : isdigit c = true → c ∈ digit_chars.
Proof.
  intros H. apply list_elem_of_In.
  destruct c as [[] [] [] [] [] [] [] []]; vm_compute in H;
    try discriminate H; simpl; tauto.
Qed.

Lemma digit_strings_complete o :
  truthy o = true → all_chars isdigit o = true →
  (3 <? String.length o)%nat = false → o ∈ digit_strings.
Proof.
  intros Hne Hdig Hlen. unfold digit_strings.
  destruct o as [|c1 [|c2 [|c3 [|c4 o]]]]; try done; simpl in Hdig.
  - apply andb_prop in Hdig as [H1%isdigit_cases _].
    apply elem_of_app. left. apply list_elem_of_fmap. by exists c1.
  - apply andb_prop in Hdig as [H1%isdigit_cases [H2%isdigit_cases _]%andb_prop].
    apply elem_of_app. right. apply elem_of_app. left.
    apply list_elem_of_bind. exists c1. split; [|done].
    apply list_elem_of_fmap. eexists. split; [done|].
    apply list_elem_of_fmap. by exists c2.
  - apply andb_prop in Hdig as [H1%isdigit_cases [H2%isdigit_cases
      [H3%isdigit_cases _]%andb_prop]%andb_prop].
    apply elem_of_app. right. apply elem_of_app. right.
    apply list_elem_of_bind. exists c1. split; [|done].
    apply list_elem_of_fmap. eexists. split; [done|].
    apply list_elem_of_bind. exists c2. split; [|done].
    apply list_elem_of_fmap. eexists. split; [done|].
    apply list_elem_of_fmap. by exists c3.
Qed.

Lemma digit_strings_are_numerals :
  forallb octet_is_numeral digit_strings = true.
Proof. vm_compute. reflexivity. Qed.

Lemma parse_octet_numeral o v :
  parse_octet o = Ok v → 0 ≤ v ≤ 255 ∧ o = str v.
Proof.
  intros Hp.
  assert (Hin : o ∈ digit_strings).
  { unfold parse_octet in Hp.
    destruct (truthy o) eqn:Hne; [|done]. simpl in Hp.
    destruct (all_chars isdigit o) eqn:Hdig; [|done]. simpl in Hp.
    destruct (3 <? String.length o)%nat eqn:Hlen; [done|].
    by apply digit_strings_complete. }
  pose proof digit_strings_are_numerals as Hall.
  rewrite forallb_forall in Hall.
  specialize (Hall o (proj1 (list_elem_of_In _ _) Hin)).
  unfold octet_is_numeral in Hall. rewrite Hp in Hall.
  apply andb_prop in Hall as [[?%Z.leb_le ?%Z.leb_le]%andb_prop ?%bool_decide_eq_true].
  done.
Qed.

(** What [IPv4Address] accepts is the dotted quad of its four octets. *)
Lemma IPv4Address_dotted_quad s n :
  IPv4Address s = Ok n →
  ∃ a b c d, 0 ≤ a ≤ 255 ∧ 0 ≤ b ≤ 255 ∧ 0 ≤ c ≤ 255 ∧ 0 ≤ d ≤ 255
    ∧ s = dotted_quad a b c d
    ∧ n = ((a * 256 + b) * 256 + c) * 256 + d.
Proof.
  unfold IPv4Address, ip4_int_from_string.
  destruct (contains "/" s); [done|].
  destruct (truthy s); [|done]. simpl.
  pose proof (concat_split "." s) as Hjoin.
  destruct (split "." s) as [|o1 [|o2 [|o3 [|o4 [|o5 os]]]]]; try done.
  simpl.
  destruct (parse_octet o1) as [a|] eqn:H1; [|done].
  destruct (parse_octet o2) as [b|] eqn:H2; [|done].
  destruct (parse_octet o3) as [c|] eqn:H3; [|done].
  destruct (parse_octet o4) as [d|] eqn:H4; [|done].
  intros [= <-].
  apply parse_octet_numeral in H1 as [? ->], H2 as [? ->], H3 as [? ->],
    H4 as [? ->].
  exists a, b, c, d. repeat split; try lia. by rewrite <- Hjoin.
Qed.

(** Two literals of the same address are the same string. *)
Lemma IPv4Address_inj s s' n :
  IPv4Address s = Ok n → IPv4Address s' = Ok n → s = s'.
Proof.
  intros (a & b & c & d & ? & ? & ? & ? & -> & ->)%IPv4Address_dotted_quad
         (a' & b' & c' & d' & ? & ? & ? & ? & -> & Hn)%IPv4Address_dotted_quad.
  assert (a = a' ∧ b = b' ∧ c = c' ∧ d = d') as (-> & -> & -> & ->) by lia.
  done.
Qed.
End IPv4.

(** ** Address discovery *)

Section Discovery.
Import launcher1.

Lemma emit_nil p : emit p [] = p.
Proof. destruct p. unfold emit. simpl. by rewrite app_nil_r. Qed.

Lemma emit_emit p a b : emit (emit p a) b = emit p (a ++ b).
Proof. unfold emit. simpl. by rewrite app_assoc. Qed.

Lemma loopback4 : Py.IPv4Address "127.0.0.1" = Ok 2130706433.
Proof. vm_compute. reflexivity. Qed.

Lemma loopback6 : Py.IPv6Address "::1" = Ok (1, None).
Proof. vm_compute. reflexivity. Qed.

Lemma seed_san_list_run p : seed_san_list p = (Ok seeds, p).
Proof. unfold seed_san_list. by rewrite loopback4, loopback6. Qed.

Lemma ip_sans_app a b : ip_sans (a ++ b) = ip_sans a ++ ip_sans b.
Proof.
  induction a as [|ip a IH]; simpl; [done|].
  destruct (Py.IPv4Address ip); simpl; by rewrite IH.
Qed.

Lemma ip_sans_one ip a : Py.IPv4Address ip = Ok a → ip_sans [ip] = [IPAddress (IPv4 a)].
Proof. intros H. simpl. by rewrite H. Qed.

Lemma add_hostname_ip_run h san det p :
  add_hostname_ip h (san, det) p
  = (Ok (san ++ ip_sans (hostname_ip h), det ++ hostname_ip h), p).
Proof.
  unfold add_hostname_ip, hostname_ip, valid_ipv4. run.
  destruct (gethostname h) as [name|]; simpl; [|by rewrite !app_nil_r].
  destruct (gethostbyname h name) as [ip|]; simpl; [|by rewrite !app_nil_r].
  destruct (bool_decide (ip = "127.0.0.1")); simpl; [by rewrite !app_nil_r|].
  destruct (Py.IPv4Address ip) as [a|] eqn:Hip; simpl; rewrite ?Hip;
    by rewrite ?app_nil_r.
Qed.

Lemma add_primary_ip_run h san det p :
  add_primary_ip h (san, det) p
  = (Ok (san ++ ip_sans (primary_ip h det), det ++ primary_ip h det), p).
Proof.
  unfold add_primary_ip, primary_ip, valid_ipv4. run.
  destruct (udp_source_address h "8.8.8.8" 80) as [ip|]; simpl;
    [|by rewrite !app_nil_r].
  destruct (bool_decide (ip ∈ "127.0.0.1" :: det)); simpl;
    [by rewrite !app_nil_r|].
  destruct (Py.IPv4Address ip) as [a|] eqn:Hip; simpl; rewrite ?Hip;
    by rewrite ?app_nil_r.
Qed.

(** The loop over the raw entries, from any accumulator. *)
Lemma custom_loop_run (raw : list string) : ∀ san det p,
  let entries := List.filter Py.truthy (Py.strip <$> raw) in
  for_each raw add_custom_ip (san, det) p
  = (Ok (san ++ ip_sans (well_formed entries), det ++ well_formed entries),
     emit p (InvalidCustomIP <$> malformed entries)).
Proof.
  induction raw as [|ip raw IH]; intros san det p; simpl.
  - unfold ret. by rewrite !app_nil_r, emit_nil.
  - unfold bind at 1. unfold add_custom_ip at 1.
    destruct (Py.truthy (Py.strip ip)) eqn:Hne; simpl.
    + unfold valid_ipv4. unfold try_except, bind at 1, lift.
      destruct (Py.IPv4Address (Py.strip ip)) as [a|e] eqn:Hip; simpl.
      * rewrite IH, Hip. simpl. by rewrite <- !app_assoc.
      * unfold bind at 1, print. simpl. rewrite IH. simpl.
        fold (emit p [InvalidCustomIP (Py.strip ip)]). by rewrite emit_emit.
    + unfold ret at 1. apply IH.
Qed.

Lemma custom_entries_blank env :
  Py.truthy (Py.strip (default_to "" (env !! "CERT_ADDITIONAL_IPS"))) = false →
  custom_entries env = [].
Proof.
  unfold custom_entries. destruct (Py.strip _); [done|discriminate].
Qed.

(** [san_discovery] never raises, and its result is a function of the
    host and of [CERT_ADDITIONAL_IPS]. *)
Lemma san_discovery_run h p :
  let entries := custom_entries (environ p) in
  san_discovery h p
  = (Ok (seeds ++ ip_sans (network_ips h) ++ ip_sans (well_formed entries),
         network_ips h ++ well_formed entries),
     emit p (InvalidCustomIP <$> malformed entries)).
Proof.
  unfold san_discovery. unfold bind at 1. rewrite seed_san_list_run.
  unfold bind at 1. rewrite add_hostname_ip_run.
  unfold bind at 1. rewrite add_primary_ip_run.
  unfold bind at 1, getenv_default. simpl.
  unfold network_ips. rewrite ip_sans_app, <- !app_assoc.
  destruct (Py.truthy _) eqn:Hne.
  - rewrite custom_loop_run. unfold custom_entries, seeds.
    by rewrite <- ?app_assoc, <- ?app_comm_cons, <- ?app_assoc.
  - rewrite (custom_entries_blank _ Hne). unfold ret. simpl.
    by rewrite !app_nil_r, emit_nil.
Qed.

Lemma ip_sans_elem_inv x ips :
  x ∈ ip_sans ips →
  ∃ ip a, ip ∈ ips ∧ Py.IPv4Address ip = Ok a ∧ x = IPAddress (IPv4 a).
Proof.
  induction ips as [|ip ips IH]; simpl; [by intros ?%elem_of_nil|].
  destruct (Py.IPv4Address ip) as [a|] eqn:Hip.
  - intros [->|Hx]%elem_of_cons.
    + exists ip, a. split; [by left|done].
    + destruct (IH Hx) as (ip' & a' & ? & ? & ?).
      exists ip', a'. split; [by right|done].
  - intros Hx. destruct (IH Hx) as (ip' & a' & ? & ? & ?).
    exists ip', a'. split; [by right|done].
Qed.

(** Distinct strings give distinct addresses. *)
Lemma ip_sans_NoDup ips : NoDup ips → NoDup (ip_sans ips).
Proof.
  induction 1 as [|ip ips Hnot Hnd IH]; simpl; [apply NoDup_nil_2|].
  destruct (Py.IPv4Address ip) as [a|] eqn:Hip; [|done].
  apply NoDup_cons. split; [|done].
  intros (ip' & a' & Hin & Hip' & [= <-])%ip_sans_elem_inv.
  by rewrite (IPv4Address_inj ip ip' a Hip Hip') in Hnot.
Qed.

Lemma seeds_and_ip_sans_NoDup ips :
  NoDup ("127.0.0.1" :: ips) → NoDup (seeds ++ ip_sans ips).
Proof.
  intros [Hlo Hnd]%NoDup_cons. unfold seeds. simpl.
  repeat (apply NoDup_cons; split); [| | |by apply ip_sans_NoDup].
  - intros [[=]|[[=]|(ip & a & _ & _ & [=])%ip_sans_elem_inv]%elem_of_cons]%elem_of_cons.
  - intros [[=]|(ip & a & Hin & Hip & [= <-])%ip_sans_elem_inv]%elem_of_cons.
    by rewrite (IPv4Address_inj ip "127.0.0.1" _ Hip loopback4) in Hin.
  - intros (ip & a & _ & _ & [=])%ip_sans_elem_inv.
Qed.
End Discovery.

(** ** Files and generation *)

Section Provisioning.
Import launcher1.

Lemma write_file_ok h f data p :
  open_error h f = None → write_error h f = None →
  write_file h f data p
  = (Ok tt, Process (environ p) (<[f := data]> (disk p)) (stdout p)).
Proof.
  intros Ho Hw. unfold write_file. rewrite Ho, Hw.
  unfold bind, set_file. cbn [environ disk stdout].
  by rewrite insert_insert_eq.
Qed.

Lemma write_file_raises h f data p :
  no_error (open_error h f) && no_error (write_error h f) = false →
  ∃ e p', write_file h f data p = (Raise e, p').
Proof.
  unfold write_file. destruct (open_error h f) as [e|]; simpl.
  - intros _. by exists e, p.
  - destruct (write_error h f) as [e|]; simpl; [|done].
    intros _. unfold bind, set_file, raise. by eexists e, _.
Qed.

Lemma generate_success h c k p key cert :
  signed_certificate h (environ p) = Some (key, cert) →
  can_persist h c k = true →
  generate h c k p
  = (Ok (ssl_paths c k, "HTTPS"), persisted h p c k key cert).
Proof.
  unfold signed_certificate, can_persist, no_error.
  destruct (import_cryptography h) eqn:Himp; [done|].
  destruct (generate_private_key h 65537 2048) as [key'|] eqn:Hkey; [|done].
  destruct (rsa_sign h key' SHA256 _) as [sig|] eqn:Hsig; [|done].
  intros [= <- <-] Hper.
  destruct (open_error h c) eqn:Hoc; [done|].
  destruct (write_error h c) eqn:Hwc; [done|].
  destruct (open_error h k) eqn:Hok; [done|].
  destruct (write_error h k) eqn:Hwk; [done|]. clear Hper.
  unfold generate, try_except. unfold bind at 1. rewrite Himp. simpl.
  unfold bind at 1. unfold lift at 1. rewrite Hkey.
  unfold bind at 1. rewrite san_discovery_run.
  fold (san_list_of h (environ p)). fold (detected_ips_of h (environ p)).
  unfold bind at 1. unfold lift at 1. simpl. rewrite Hsig.
  unfold bind at 1. rewrite write_file_ok by done.
  unfold bind at 1. rewrite write_file_ok by done.
  unfold persisted. run.
  destruct (bool_decide (detected_ips_of h (environ p) = [])); simpl;
    by rewrite <- ?app_assoc.
Qed.
(** Every failure inside [generate] is answered by one of its handlers. *)
Lemma generate_fallback h c k p :
  signed_certificate h (environ p) = None ∨ can_persist h c k = false →
  ∃ p', generate h c k p = (Ok (∅, "HTTP"), p').
Proof.
  unfold signed_certificate, generate.
  intros Hfail. unfold try_except. unfold bind at 1.
  destruct (import_cryptography h) as [e|] eqn:Himp; simpl; [handled e|].
  unfold bind at 1. unfold lift at 1.
  destruct (generate_private_key h 65537 2048) as [key|e]; [|handled e].
  unfold bind at 1. rewrite san_discovery_run.
  fold (san_list_of h (environ p)). fold (detected_ips_of h (environ p)).
  unfold bind at 1. unfold lift at 1. simpl.
  destruct (rsa_sign h key SHA256 _) as [sig|e]; [|handled e].
  destruct Hfail as [?|Hper]; [done|]. unfold can_persist in Hper.
  unfold bind at 1.
  destruct (no_error (open_error h c) && no_error (write_error h c)) eqn:Hc.
  - apply andb_prop in Hc as [Hoc Hwc].
    rewrite write_file_ok by (by destruct (open_error h c), (write_error h c)).
    unfold bind at 1.
    edestruct (write_file_raises h k) as (e & q & ->).
    { unfold no_error in *. destruct (open_error h c), (write_error h c),
        (open_error h k), (write_error h k); done. }
    handled e.
  - edestruct (write_file_raises h c) as (e & q & ->); [exact Hc|]. handled e.
Qed.

(** [generate] never raises. *)
Lemma generate_total h c k p :
  ∃ r p', generate h c k p = (Ok r, p')
    ∧ (r = (ssl_paths c k, "HTTPS") ∨ r = (∅, "HTTP")).
Proof.
  destruct (signed_certificate h (environ p)) as [[key cert]|] eqn:Hs.
  - destruct (can_persist h c k) eqn:Hp.
    + eexists _, _. split; [by apply generate_success|by left].
    + destruct (generate_fallback h c k p) as [p' ->]; [by right|].
      eexists _, _. split; [done|by right].
  - destruct (generate_fallback h c k p) as [p' ->]; [by left|].
    eexists _, _. split; [done|by right].
Qed.
End Provisioning.

(** ** Reuse of existing files *)

Section Reuse.
Import launcher1.

Lemma load_existing_run h c k p :
  load_existing h c k p
  = if usable h p c k
    then (Ok (Some (ssl_paths c k, "HTTPS")), emit p [UsingExisting c k])
    else (Ok None, emit p (stat_complaint h p c k)).
Proof.
  unfold usable, stat_complaint, no_error.
  destruct (disk p !! c) as [[|b cert]|] eqn:Hc;
    destruct (disk p !! k) as [[|b' key]|] eqn:Hk;
    destruct (stat_error h c) eqn:Hsc; destruct (stat_error h k) eqn:Hsk.
  all: unfold load_existing, path_exists, stat_size, try_except, bind, ret,
         print, emit.
  all: repeat (progress (cbv beta iota; rewrite ?Hc, ?Hk, ?Hsc, ?Hsk)).
  all: repeat (progress (simpl; rewrite ?Hc, ?Hk, ?Hsc, ?Hsk)).
  all: rewrite ?app_nil_r; by destruct p.
Qed.

Lemma ensure_cert_enabled h cert_base p :
  https_enabled p → mkdir h (path_join cert_base "bin") = None →
  ensure_cert h cert_base p
  = if usable h p (cert_path cert_base) (key_path cert_base)
    then (Ok (ssl_paths (cert_path cert_base) (key_path cert_base), "HTTPS"),
          emit p [UsingExisting (cert_path cert_base) (key_path cert_base)])
    else generate h (cert_path cert_base) (key_path cert_base)
           (emit p (stat_complaint h p (cert_path cert_base) (key_path cert_base))).
Proof.
  unfold https_enabled. intros Hen Hmk. unfold ensure_cert.
  unfold bind at 1, getenv. rewrite Hen, Hmk.
  unfold bind at 1. simpl.
  fold (cert_path cert_base). fold (key_path cert_base).
  unfold bind at 1. rewrite load_existing_run.
  by destruct (usable h p _ _).
Qed.

Lemma ensure_cert_mkdir_raises h cert_base p e :
  https_enabled p → mkdir h (path_join cert_base "bin") = Some e →
  ensure_cert h cert_base p = (Raise e, p).
Proof.
  unfold https_enabled. intros Hen Hmk. unfold ensure_cert.
  unfold bind at 1, getenv. rewrite Hen, Hmk. done.
Qed.

Lemma cert_key_distinct cert_base : cert_path cert_base ≠ key_path cert_base.
Proof.
  unfold cert_path, key_path, path_join. intros H.
  apply app_inv_head in H. discriminate.
Qed.

Lemma pem_not_empty label body : (length (pem label body) =? 0)%nat = false.
Proof. unfold pem. destruct label; reflexivity. Qed.
End Reuse.

(** ** Prints and [exists] that fail *)

Section Faults.
Import launcher1.

(** With no failing call the functions are the ones above. *)
Lemma validate_config_with_no_faults p :
  validate_config_with no_faults p = validate_config p.
Proof. reflexivity. Qed.

Lemma ensure_cert_with_no_faults h cert_base p :
  ensure_cert_with no_faults h cert_base p = ensure_cert h cert_base p.
Proof. reflexivity. Qed.

Lemma attempt_app {A} fl (a b : list line) (x : A) : ∀ p,
  attempt fl p (a ++ b) x
  = match attempt fl p a tt with
    | (Ok _, q) => attempt fl q b x
    | (Raise e, q) => (Raise e, q)
    end.
Proof.
  induction a as [|l a IH]; intros p; simpl; [done|].
  destruct (print_error fl l); [done|]. apply IH.
Qed.

Lemma attempt_accepted {A} fl lines (x : A) : ∀ p,
  (∀ l, l ∈ lines → print_error fl l = None) →
  attempt fl p lines x = (Ok x, emit p lines).
Proof.
  induction lines as [|l lines IH]; intros p Hall; simpl.
  - by rewrite emit_nil.
  - rewrite Hall by (apply elem_of_cons; by left).
    rewrite IH by (intros l' Hl'; apply Hall, elem_of_cons; by right).
    by rewrite emit_emit.
Qed.

Lemma attempt_raises {A} fl lines (x : A) : ∀ p e q,
  attempt fl p lines x = (Raise e, q) →
  ∃ l, l ∈ lines ∧ print_error fl l = Some e.
Proof.
  induction lines as [|l lines IH]; intros p e q; simpl; [done|].
  destruct (print_error fl l) as [e'|] eqn:Hl.
  - intros [= <- <-]. exists l. split; [apply elem_of_cons; by left|done].
  - intros Hrest. destruct (IH _ _ _ Hrest) as (l' & Hin & Hl').
    exists l'. split; [apply elem_of_cons; by right|done].
Qed.

Lemma attempt_value {A} fl lines (x : A) : ∀ p,
  attempt fl p lines x
  = match attempt fl p lines tt with
    | (Ok _, q) => (Ok x, q)
    | (Raise e, q) => (Raise e, q)
    end.
Proof.
  induction lines as [|l lines IH]; intros p; simpl; [done|].
  destruct (print_error fl l); [done|]. apply IH.
Qed.

Lemma attempt_environ {A} fl lines (x : A) : ∀ p,
  environ (attempt fl p lines x).2 = environ p.
Proof.
  induction lines as [|l lines IH]; intros p; simpl; [done|].
  destruct (print_error fl l); [done|]. by rewrite IH.
Qed.

(** A list of [print] calls, one after the other. *)
Lemma print_on_one fl l p : print_on fl l p = attempt fl p [l] tt.
Proof. unfold print_on. simpl. by destruct (print_error fl l). Qed.

Lemma print_on_then fl l lines (m : M unit) p :
  (∀ q, m q = attempt fl q lines tt) →
  (print_on fl l;; m) p = attempt fl p (l :: lines) tt.
Proof.
  intros Hm. unfold bind, print_on. simpl.
  destruct (print_error fl l); [done|]. apply Hm.
Qed.

(** Lines 35-42: the port, and what is printed about it. *)
Lemma port_with_run fl p :
  try_except
    (let* v := getenv_default "PORT" "8888" in
     let* port := lift (Py.int v) in
     if negb ((1 <=? port) && (port <=? 65535))
     then raise (ValueError (OutOfRange port))
     else ret port)
    (λ e, match e with
          | ValueError e =>
              Some (print_on fl (InvalidPort e);;
                    let port := 8888 in
                    print_on fl (UsingDefaultPort port);;
                    ret port)
          | _ => None
          end) p
  = attempt fl p (port_warning (environ p !! "PORT"))
      (resolved_port (environ p !! "PORT")).
Proof.
  assert (Hwarn : ∀ v q,
    (print_on fl (InvalidPort v);; print_on fl (UsingDefaultPort 8888);;
     ret 8888) q
    = attempt fl q [InvalidPort v; UsingDefaultPort 8888] 8888).
  { intros v q. unfold bind, print_on, ret. simpl.
    destruct (print_error fl (InvalidPort v)); [done|]. simpl.
    by destruct (print_error fl (UsingDefaultPort 8888)). }
  unfold try_except, resolved_port, port_warning, in_port_range.
  unfold bind at 1. unfold getenv_default at 1.
  destruct (environ p !! "PORT") as [s|]; cbn [default_to].
  - unfold bind at 1. unfold lift at 1.
    destruct (Py.int s) as [n|e] eqn:Hint.
    + destruct ((1 <=? n) && (n <=? 65535)); cbn [negb]; [done|].
      unfold raise. apply Hwarn.
    + destruct (int_raises_value_error _ _ Hint) as [v ->]. apply Hwarn.
  - reflexivity.
Qed.

(** Everything [validate_config] does: it works out the port and the debug
    flag, and prints its lines in order as far as [print] lets it. *)
Lemma validate_config_with_run fl p :
  let port := resolved_port (environ p !! "PORT") in
  let api_pw := environ p !! "API_PASSWORD" in
  let debug := parse_bool (environ p !! "DEBUG") false in
  validate_config_with fl p
  = attempt fl p
      (port_warning (environ p !! "PORT")
       ++ password_warning api_pw
       ++ debug_report debug
            (if password_given api_pw then default_to "" api_pw
             else "<not set>") port)
      (port, debug).
Proof.
  intros port api_pw debug. unfold validate_config_with.
  unfold bind at 1. rewrite port_with_run. fold port.
  rewrite attempt_app, (attempt_value _ _ port).
  pose proof (attempt_environ fl (port_warning (environ p !! "PORT")) tt p)
    as Henv.
  destruct (attempt fl p (port_warning (environ p !! "PORT")) tt)
    as [[[]|e] q]; [|done].
  cbn [snd] in Henv.
  unfold bind at 1, getenv at 1. rewrite Henv. fold api_pw.
  assert (Hpw : ∀ q',
    (if negb (Py.truthy (default_to "" api_pw))
     then print_on fl ApiPasswordNotSet
     else when (bool_decide (api_pw = Some "changeme"))
               (print_on fl DefaultApiPassword)) q'
    = attempt fl q' (password_warning api_pw) tt).
  { intros q'. unfold password_warning, password_given, when.
    destruct (negb (Py.truthy (default_to "" api_pw)));
      [apply print_on_one|].
    destruct (bool_decide (api_pw = Some "changeme"));
      [apply print_on_one|done]. }
  unfold bind at 1. rewrite Hpw, attempt_app.
  pose proof (attempt_environ fl (password_warning api_pw) tt q) as Henv'.
  destruct (attempt fl q (password_warning api_pw) tt) as [[[]|e] q1];
    [|done].
  cbn [snd] in Henv'.
  unfold bind at 1, getenv at 1. rewrite Henv', Henv. fold debug.
  unfold bind at 1, when, debug_report, password_given.
  destruct debug.
  - assert (Hdbg : ∀ a b c q',
      (print_on fl a;; print_on fl b;; print_on fl c) q'
      = attempt fl q' [a; b; c] tt).
    { intros a b c q'. apply print_on_then. intros q2.
      apply print_on_then. intros q3. apply print_on_one. }
    rewrite Hdbg, (attempt_value _ _ (port, true)).
    by destruct (attempt fl q1 _ tt) as [[[]|e] q2].
  - reflexivity.
Qed.

Lemma no_invalid_port_after_the_port api_pw debug shown port e :
  InvalidPort e ∉ password_warning api_pw ++ debug_report debug shown port.
Proof.
  unfold password_warning, debug_report. rewrite elem_of_app.
  intros [H|H]; revert H; repeat case_match;
    rewrite ?elem_of_cons, ?elem_of_nil; intuition congruence.
Qed.

(** [exists] stands before the [try] of lines 91-96: what it raises
    leaves [ensure_cert]. *)
Lemma ensure_cert_with_exists_raises fl h cert_base p e :
  https_enabled p →
  mkdir h (path_join cert_base "bin") = None →
  exists_error fl (cert_path cert_base) = Some e →
  ensure_cert_with fl h cert_base p = (Raise e, p).
Proof.
  unfold https_enabled. intros Hen Hmk Hex. unfold ensure_cert_with.
  unfold bind at 1, getenv. rewrite Hen, Hmk.
  unfold bind at 1. simpl.
  fold (cert_path cert_base). fold (key_path cert_base).
  unfold bind at 1, load_existing_with. unfold bind at 1, path_exists_on.
  by rewrite Hex.
Qed.
End Faults.

(** ** Properties of the launchers *)

Section Claims.
Import launcher1.

(** *** Configuration *)

(** C8.  [parse_bool] answers the default for an unset value, true for a
    value that is one of 1, true, yes, on up to the case of its letters
    and surrounding white space, and false for every other value. *)
Theorem parse_bool_spec (v : string) (default : bool) :
  parse_bool None default = default
  ∧ ((∃ w, w ∈ truthy_words ∧ reads_as v w) →
     parse_bool (Some v) default = true)
  ∧ (¬ (∃ w, w ∈ truthy_words ∧ reads_as v w) →
     parse_bool (Some v) default = false).
Proof.
  assert (Hiff : parse_bool (Some v) default = true
                 ↔ ∃ w, w ∈ truthy_words ∧ reads_as v w).
  { unfold parse_bool. rewrite bool_decide_eq_true. split.
    - intros Hin. exists (Py.lower (Py.strip v)). split; [done|].
      destruct (lstrip_split v) as (l & Hv & Hl).
      destruct (rstrip_split (Py.lstrip v)) as (r & Hs & Hr).
      exists l, (Py.strip v), r. repeat split; try done.
      + unfold Py.strip. by rewrite <- Hs.
      + apply eq_ignore_case_lower.
    - intros (w & Hw & l & core & r & -> & Hl & Hr & Hcore).
      rewrite (strip_word l core r w) by done.
      rewrite (eq_ignore_case_eq _ _ Hcore).
      unfold truthy_words in Hw.
      repeat (apply elem_of_cons in Hw as [-> | Hw]);
        [| | | |by apply elem_of_nil in Hw];
        vm_compute; set_solver. }
  split; [done|]. split.
  - apply Hiff.
  - intros Hn. destruct (parse_bool (Some v) default); [|done].
    destruct Hn. by apply Hiff.
Qed.

Lemma parse_bool_spec_witness :
  parse_bool (Some "  Yes ") false = true.
Proof.
  apply (proj1 (proj2 (parse_bool_spec "  Yes " false))).
  exists "yes". split.
  - unfold truthy_words. apply list_elem_of_In. simpl. tauto.
  - exists "  ", "Yes", " ". repeat split; reflexivity.
Defined.

(** C2, as the code has it.  [validate_config] works out the port and
    prints its lines in order.  When [PORT] holds a string that [int]
    reads as a number from 1 to 65535 (the decimal numeral of such a
    number is one), that number is the port and nothing is printed about
    the port; when [PORT] holds any other string, the port is 8888 and the
    warning is printed; when [PORT] is unset, the port is 8888 and nothing
    is printed about it.  The port and the debug flag are returned when
    every [print] succeeds; the exception of a [print] that fails is not
    caught, and no other exception leaves [validate_config]. *)
Theorem validate_config_port (fl : faults) (p : process) :
  ∃ port debug warning notes,
    validate_config_with fl p = attempt fl p (warning ++ notes) (port, debug)
    ∧ (∀ e, InvalidPort e ∉ notes)
    ∧ (∀ s n, environ p !! "PORT" = Some s → Py.int s = Ok n →
              1 ≤ n ≤ 65535 → port = n ∧ warning = [])
    ∧ (∀ n, environ p !! "PORT" = Some (str n) → 1 ≤ n ≤ 65535 →
            port = n ∧ warning = [])
    ∧ (∀ s, environ p !! "PORT" = Some s →
            (∀ n, Py.int s = Ok n → ¬ 1 ≤ n ≤ 65535) →
            port = 8888
            ∧ ∃ e, warning = [InvalidPort e; UsingDefaultPort 8888])
    ∧ (environ p !! "PORT" = None → port = 8888 ∧ warning = [])
    ∧ ((∀ l, l ∈ warning ++ notes → print_error fl l = None) →
       validate_config_with fl p
       = (Ok (port, debug), emit p (warning ++ notes)))
    ∧ (∀ e q, validate_config_with fl p = (Raise e, q) →
              ∃ l, l ∈ warning ++ notes ∧ print_error fl l = Some e).
Proof.
  pose proof (validate_config_with_run fl p) as Hrun. cbv zeta in Hrun.
  eexists (resolved_port (environ p !! "PORT")), _,
    (port_warning (environ p !! "PORT")), _.
  split; [exact Hrun|].
  split; [intros e; apply no_invalid_port_after_the_port|].
  assert (Hgood : ∀ s n, environ p !! "PORT" = Some s → Py.int s = Ok n →
            1 ≤ n ≤ 65535 →
            resolved_port (environ p !! "PORT") = n
            ∧ port_warning (environ p !! "PORT") = []).
  { intros s n -> Hint Hn. unfold resolved_port, port_warning.
    rewrite Hint. apply in_port_range_spec in Hn. by rewrite Hn. }
  split; [exact Hgood|]. split; [|split; [|split; [|split]]].
  - intros n Hs Hn. apply (Hgood (str n) n Hs); [|done].
    by apply int_str_port.
  - intros s -> Hbad. unfold resolved_port, port_warning.
    destruct (Py.int s) as [n|e] eqn:Hint.
    + destruct (in_port_range n) eqn:Hn.
      * apply in_port_range_spec in Hn. by destruct (Hbad n).
      * eauto.
    + destruct (int_raises_value_error _ _ Hint) as [v ->]. eauto.
  - by intros ->.
  - intros Hall. rewrite Hrun. by apply attempt_accepted.
  - intros e q. rewrite Hrun. apply attempt_raises.
Qed.

Lemma validate_config_port_witness :
  ∃ debug q,
    validate_config_with no_faults (fresh [("PORT", "9999")])
    = (Ok (9999, debug), q)
    ∧ ∃ debug q,
        validate_config_with no_faults (fresh [("PORT", "http")])
        = (Ok (8888, debug), q).
Proof.
  destruct (validate_config_port no_faults (fresh [("PORT", "9999")]))
    as (port & debug & warning & notes & _ & _ & Hgood & _ & _ & _ & Hok & _).
  destruct (Hgood "9999" 9999) as [-> _];
    [reflexivity | reflexivity | lia |].
  exists debug, (emit (fresh [("PORT", "9999")]) (warning ++ notes)).
  split; [by apply Hok|].
  destruct (validate_config_port no_faults (fresh [("PORT", "http")]))
    as (port' & debug' & warning' & notes' & _ & _ & _ & _ & Hbad & _ & Hok'
        & _).
  destruct (Hbad "http") as [-> _]; [reflexivity | intros n [=] |].
  exists debug', (emit (fresh [("PORT", "http")]) (warning' ++ notes')).
  by apply Hok'.
Defined.

(** C2, as it is stated, fails twice.  When [PORT] is unset the port is
    8888 and no line at all is printed.  And on a console whose encoding
    is ASCII the warning about [PORT=http], which starts with an emoji,
    cannot be printed: [print] raises [UnicodeEncodeError] in the handler
    of line 40, and [validate_config] raises instead of returning 8888. *)
Lemma silent_default_and_refused_warning :
  (environ (fresh [("API_PASSWORD", "s3cret")]) !! "PORT" = None
   ∧ validate_config_with no_faults (fresh [("API_PASSWORD", "s3cret")])
     = (Ok (8888, false), fresh [("API_PASSWORD", "s3cret")])
   ∧ stdout (fresh [("API_PASSWORD", "s3cret")]) = [])
  ∧ (Py.int "http" = Raise (ValueError (InvalidLiteral "http"))
     ∧ print_error ascii_console (InvalidPort (InvalidLiteral "http"))
       = Some (ValueError (UnicodeEncodeError "ascii"))
     ∧ validate_config_with ascii_console (fresh [("PORT", "http")])
       = (Raise (ValueError (UnicodeEncodeError "ascii")),
          fresh [("PORT", "http")])).
Proof. repeat split. Qed.

(** C10.  On the same environment the two launchers never raise and
    resolve the same port, whether [PORT] is set or not. *)
Theorem launchers_agree_on_port (p : process) :
  ∃ port debug debug1 q q1,
    launcher.validate_config p = (Ok (port, debug), q)
    ∧ launcher1.validate_config p = (Ok (port, debug1), q1).
Proof.
  destruct (launcher_validate_config_run p) as (debug & notes & Hrun & _).
  destruct (launcher1_validate_config_run p) as (debug1 & notes1 & Hrun1 & _).
  by eexists _, _, _, _, _.
Qed.

Lemma config_without_tls (port : Z) (host : string) (debug http2 http2' : bool) :
  build_uvicorn_config port host ∅ http2 debug
  = build_uvicorn_config port host ∅ http2' debug.
Proof.
  unfold build_uvicorn_config.
  rewrite (bool_decide_eq_true_2 (∅ = ∅)) by reflexivity.
  reflexivity.
Qed.

Lemma ssl_paths_not_empty c k : ssl_paths c k ≠ ∅.
Proof. unfold ssl_paths. apply insert_non_empty. Qed.

(** With TLS files the flag is visible in the configuration. *)
Lemma http2_flag_seen_with_tls port host debug c k :
  build_uvicorn_config port host (ssl_paths c k) true debug !! "http"
  = Some (PStr "h11")
  ∧ build_uvicorn_config port host (ssl_paths c k) false debug !! "http"
    = Some (PStr "auto").
Proof.
  unfold build_uvicorn_config.
  rewrite (bool_decide_eq_false_2 _ (ssl_paths_not_empty c k)).
  split; (rewrite lookup_union_r; [reflexivity | reflexivity]).
Qed.

(** C9.  Without TLS files the launch configuration is the same for both
    values of the HTTP/2 flag; so the flag can change the configuration
    only when [ssl_config] is not empty. *)
Theorem http2_flag_ignored_without_tls
    (port : Z) (host : string) (debug : bool) :
  (∀ http2 http2',
     build_uvicorn_config port host ∅ http2 debug
     = build_uvicorn_config port host ∅ http2' debug)
  ∧ (∀ ssl_config,
       build_uvicorn_config port host ssl_config true debug
       ≠ build_uvicorn_config port host ssl_config false debug →
       ssl_config ≠ ∅).
Proof.
  split.
  - intros. apply config_without_tls.
  - intros ssl_config Hdiff ->. apply Hdiff, config_without_tls.
Qed.

Lemma http2_flag_ignored_without_tls_witness :
  ssl_paths (cert_path srv) (key_path srv) ≠ ∅.
Proof.
  apply (proj2 (http2_flag_ignored_without_tls 8888 "0.0.0.0" false)).
  intros Heq.
  pose proof (http2_flag_seen_with_tls 8888 "0.0.0.0" false
                (cert_path srv) (key_path srv)) as [Hon Hoff].
  rewrite Heq, Hoff in Hon. discriminate Hon.
Defined.
End Claims.

Section Certificates.
Import launcher1.

(** *** Address discovery *)

(** C6.  Whatever the host answers, [san_discovery] returns, and the list
    it returns starts with localhost, 127.0.0.1 and ::1; that list is
    the one a generated certificate is signed with. *)
Theorem san_list_has_seeds (h : host) (p : process) :
  Py.IPv4Address "127.0.0.1" = Ok 2130706433
  ∧ Py.IPv6Address "::1" = Ok (1, None)
  ∧ ∃ san detected q more,
      san_discovery h p = (Ok (san, detected), q)
      ∧ san = [DNSName "localhost"; IPAddress (IPv4 2130706433);
               IPAddress (IPv6 1 None)] ++ more
      ∧ match signed_certificate h (environ p) with
        | Some (_, cert) => subject_alternative_name (tbs cert) = san
        | None => True
        end.
Proof.
  split; [apply loopback4|]. split; [apply loopback6|].
  eexists _, _, _, _. split; [apply san_discovery_run|].
  split; [reflexivity|].
  unfold signed_certificate.
  destruct (no_error _); [|done].
  destruct (generate_private_key h 65537 2048) as [key|]; [|done].
  by destruct (rsa_sign h key SHA256 _).
Qed.

Lemma hostname_ip_valid h ip : ip ∈ hostname_ip h → valid_ipv4 ip = true.
Proof.
  unfold hostname_ip. repeat case_match; try (by intros ?%elem_of_nil).
  by intros ->%list_elem_of_singleton.
Qed.

Lemma primary_ip_valid h det ip : ip ∈ primary_ip h det → valid_ipv4 ip = true.
Proof.
  unfold primary_ip. repeat case_match; try (by intros ?%elem_of_nil).
  by intros ->%list_elem_of_singleton.
Qed.

Lemma network_ips_valid h ip : ip ∈ network_ips h → valid_ipv4 ip = true.
Proof.
  unfold network_ips. intros [?|?]%elem_of_app;
    eauto using hostname_ip_valid, primary_ip_valid.
Qed.

(** The loopback address and the detected network addresses are distinct
    strings. *)
Lemma network_ips_distinct h : NoDup ("127.0.0.1" :: network_ips h).
Proof.
  unfold network_ips, hostname_ip, primary_ip.
  repeat case_match; simpl;
    repeat match goal with
    | H : bool_decide _ = false |- _ =>
        apply bool_decide_eq_false in H; rewrite ?list_elem_of_In in H;
        simpl in H
    end;
    apply NoDup_ListNoDup; repeat constructor; simpl; intuition congruence.
Qed.

Lemma ip_sans_elem ip a ips :
  ip ∈ ips → Py.IPv4Address ip = Ok a → IPAddress (IPv4 a) ∈ ip_sans ips.
Proof.
  intros Hin Hip. induction ips as [|ip' ips IH]; [by apply elem_of_nil in Hin|].
  simpl. apply elem_of_cons in Hin as [<-|Hin].
  - rewrite Hip. by left.
  - destruct (Py.IPv4Address ip'); [right|]; auto.
Qed.

Lemma well_formed_elem ip entries :
  ip ∈ well_formed entries ↔ ip ∈ entries ∧ valid_ipv4 ip = true.
Proof.
  unfold well_formed. rewrite !list_elem_of_In, filter_In. done.
Qed.

(** C3, as the code has it.  Of the entries of [CERT_ADDITIONAL_IPS]
    (split on commas, stripped, blank ones dropped), each IPv4 literal is
    added to the list and to the detected addresses, in order; every
    other entry, an IPv6 literal included, is skipped with one printed
    line of its own, which leaves the other entries as they are; the
    seeds and the addresses detected on the network are distinct, as
    strings and as entries of the list. *)
Theorem custom_ip_entries (h : host) (p : process) :
  let entries := custom_entries (environ p) in
  ∃ san detected,
    san_discovery h p
    = (Ok (san, detected), emit p (InvalidCustomIP <$> malformed entries))
    ∧ san = seeds ++ ip_sans (network_ips h) ++ ip_sans (well_formed entries)
    ∧ detected = network_ips h ++ well_formed entries
    ∧ (∀ ip a, ip ∈ entries → Py.IPv4Address ip = Ok a →
               IPAddress (IPv4 a) ∈ san ∧ ip ∈ detected)
    ∧ (∀ ip, ip ∈ entries → valid_ipv4 ip = false →
             ip ∈ malformed entries ∧ ip ∉ detected)
    ∧ NoDup ("127.0.0.1" :: network_ips h)
    ∧ NoDup (seeds ++ ip_sans (network_ips h)).
Proof.
  intros entries. eexists _, _. split; [apply san_discovery_run|].
  fold entries. split; [done|]. split; [done|]. split; [|split; [|split]].
  - intros ip a Hin Hip.
    assert (ip ∈ well_formed entries) as Hwf.
    { apply well_formed_elem. split; [done|]. unfold valid_ipv4. by rewrite Hip. }
    split.
    + apply elem_of_app. right. apply elem_of_app. right.
      by apply (ip_sans_elem ip).
    + apply elem_of_app. by right.
  - intros ip Hin Hbad. split.
    + unfold malformed. apply list_elem_of_In, filter_In.
      split; [by apply list_elem_of_In|]. by rewrite Hbad.
    + intros [Hnet|Hwf]%elem_of_app.
      * apply network_ips_valid in Hnet. congruence.
      * apply well_formed_elem in Hwf as [_ ?]. congruence.
  - apply network_ips_distinct.
  - apply seeds_and_ip_sans_NoDup, network_ips_distinct.
Qed.

Lemma custom_ip_entries_witness :
  ∃ san detected q,
    san_discovery offline_host
      (fresh [("CERT_ADDITIONAL_IPS", " 10.1.1.1 ,, bad")])
    = (Ok (san, detected), q)
    ∧ IPAddress (IPv4 167837953) ∈ san
    ∧ "bad" ∉ detected.
Proof.
  destruct (custom_ip_entries offline_host
              (fresh [("CERT_ADDITIONAL_IPS", " 10.1.1.1 ,, bad")]))
    as (san & detected & Hrun & _ & _ & Hgood & Hbad & _ & _).
  exists san, detected. eexists. split; [exact Hrun|]. split.
  - apply (Hgood "10.1.1.1" 167837953); [|reflexivity].
    vm_compute. apply list_elem_of_In. simpl. tauto.
  - apply (Hbad "bad"); [|reflexivity].
    vm_compute. apply list_elem_of_In. simpl. tauto.
Defined.

(** C3, as it is stated, fails on the list [fe80::1,127.0.0.1]: the
    first entry is an IP literal, and it is reported as invalid and left
    out; the second is added although the list has it already. *)
Lemma ipv6_entry_left_out_and_loopback_twice :
  is_ip_literal "fe80::1" = true
  ∧ Py.IPv6Address "fe80::1"
    = Ok (338288524927261089654018896841347694593, None)
  ∧ ∃ san,
      san_discovery offline_host
        (fresh [("CERT_ADDITIONAL_IPS", "fe80::1,127.0.0.1")])
      = (Ok (san, ["127.0.0.1"]),
         emit (fresh [("CERT_ADDITIONAL_IPS", "fe80::1,127.0.0.1")])
              [InvalidCustomIP "fe80::1"])
      ∧ (IPAddress (IPv6 338288524927261089654018896841347694593 None) ∉ san)
      ∧ ¬ NoDup san.
Proof.
  split; [by vm_compute|]. split; [by vm_compute|].
  exists (seeds ++ [IPAddress (IPv4 2130706433)]).
  split; [by vm_compute|]. split.
  - intros Hin. apply list_elem_of_In in Hin. simpl in Hin.
    repeat destruct Hin as [Hin|Hin]; try discriminate; done.
  - intros Hnd. unfold seeds in Hnd. simpl in Hnd.
    apply NoDup_cons in Hnd as [_ Hnd]. apply NoDup_cons in Hnd as [Hnot _].
    apply Hnot, list_elem_of_In. simpl. tauto.
Qed.

(** *** Provisioning *)

(** C4.  When [DISABLE_HTTPS] reads as true, [ensure_cert] prints its two
    lines and returns no TLS files and HTTP; it asks nothing of the host
    and leaves the disk as it is, whatever the disk holds. *)
Theorem disabled_https_returns_http (h : host) (cert_base : Path) (p : process) :
  parse_bool (environ p !! "DISABLE_HTTPS") false = true →
  ensure_cert h cert_base p
  = (Ok (∅, "HTTP"), emit p [HttpsDisabled; StartingHttp]).
Proof.
  intros Hd. unfold ensure_cert, bind, getenv. rewrite Hd.
  unfold print, ret, emit; simpl. by rewrite <- app_assoc.
Qed.

Lemma disabled_https_returns_http_witness :
  usable sample_host (provisioned [("DISABLE_HTTPS", "true")])
    (cert_path srv) (key_path srv) = true
  ∧ ensure_cert sample_host srv (provisioned [("DISABLE_HTTPS", "true")])
    = (Ok (∅, "HTTP"),
       emit (provisioned [("DISABLE_HTTPS", "true")])
            [HttpsDisabled; StartingHttp]).
Proof.
  split; [by vm_compute|].
  apply (disabled_https_returns_http sample_host srv). by vm_compute.
Defined.

(** The check of lines 90-96 when [exists] answers for both files.  With
    HTTPS enabled and the [bin] directory in place, the early return of
    [ensure_cert] is taken exactly when both files are on the disk,
    [stat] answers for both and neither is empty: then the two paths and
    HTTPS are returned and the disk is left as it is.  Otherwise, an
    error of [stat] included, generation is run. *)
Lemma existing_files_reused_iff_usable
    (h : host) (cert_base : Path) (p : process) :
  https_enabled p →
  mkdir h (path_join cert_base "bin") = None →
  let c := cert_path cert_base in
  let k := key_path cert_base in
  (∃ r q, load_existing h c k p = (Ok r, q) ∧ disk q = disk p
          ∧ (is_Some r ↔ usable h p c k = true))
  ∧ (usable h p c k = true →
     ensure_cert h cert_base p
     = (Ok (ssl_paths c k, "HTTPS"), emit p [UsingExisting c k]))
  ∧ (usable h p c k = false →
     ensure_cert h cert_base p
     = generate h c k (emit p (stat_complaint h p c k)))
  ∧ (∃ r q, ensure_cert h cert_base p = (Ok r, q)).
Proof.
  intros Hen Hmk c k.
  pose proof (ensure_cert_enabled h cert_base p Hen Hmk) as Hrun.
  fold c k in Hrun. split; [|split; [|split]].
  - rewrite load_existing_run. destruct (usable h p c k).
    + eexists _, _. split; [done|]. split; [done|]. split; eauto.
    + eexists _, _. split; [done|]. split; [done|].
      split; [intros [? [=]]|done].
  - intros Hu. by rewrite Hrun, Hu.
  - intros Hu. by rewrite Hrun, Hu.
  - rewrite Hrun. destruct (usable h p c k); [by eexists _, _|].
    destruct (generate_total h c k (emit p (stat_complaint h p c k)))
      as (r & q & -> & _).
    by eexists _, _.
Qed.

Lemma existing_files_reused_iff_usable_witness :
  ensure_cert sample_host srv (provisioned [])
  = (Ok (ssl_paths (cert_path srv) (key_path srv), "HTTPS"),
     emit (provisioned []) [UsingExisting (cert_path srv) (key_path srv)]).
Proof.
  apply (existing_files_reused_iff_usable sample_host srv (provisioned []));
    by vm_compute.
Defined.

(** C5, the defect.  With HTTPS enabled and a directory [bin] that is
    there but cannot be searched, [mkdir] succeeds and the first
    [exists] of line 90 raises [PermissionError]: the call stands before
    the [try] of lines 91-96, so [ensure_cert] raises, where the claim has
    an error of the check lead to regeneration. *)
Theorem exists_failure_escapes :
  https_enabled (fresh [])
  ∧ mkdir sample_host (path_join srv "bin") = None
  ∧ exists_error unsearchable_bin (cert_path srv)
    = Some (OSError "Permission denied")
  ∧ ensure_cert_with unsearchable_bin sample_host srv (fresh [])
    = (Raise (OSError "Permission denied"), fresh []).
Proof. repeat split. Qed.

(** C7.  From a process with HTTPS enabled and neither file on the disk,
    on a host where generation succeeds, [ensure_cert] writes the two
    files and returns HTTPS; a second call, on any host where the
    directory and [stat] answer, returns the same paths and HTTPS,
    prints that the files are reused and leaves the disk as it is. *)
Theorem provisioning_idempotent (h h' : host) (cert_base : Path)
    (p : process) (key : rsa_private_key) (cert : certificate) :
  https_enabled p →
  disk p !! cert_path cert_base = None →
  disk p !! key_path cert_base = None →
  mkdir h (path_join cert_base "bin") = None →
  signed_certificate h (environ p) = Some (key, cert) →
  can_persist h (cert_path cert_base) (key_path cert_base) = true →
  mkdir h' (path_join cert_base "bin") = None →
  stat_error h' (cert_path cert_base) = None →
  stat_error h' (key_path cert_base) = None →
  let c := cert_path cert_base in
  let k := key_path cert_base in
  let p1 := persisted h p c k key cert in
  ensure_cert h cert_base p = (Ok (ssl_paths c k, "HTTPS"), p1)
  ∧ disk p1 !! c = Some (pem "CERTIFICATE" (cert_base64 h cert))
  ∧ disk p1 !! k = Some (pem "PRIVATE KEY" (key_pkcs8_base64 h key))
  ∧ ensure_cert h' cert_base p1
    = (Ok (ssl_paths c k, "HTTPS"), emit p1 [UsingExisting c k])
  ∧ disk (emit p1 [UsingExisting c k]) = disk p1.
Proof.
  intros Hen Hc Hk Hmk Hsig Hper Hmk' Hsc Hsk c k p1.
  fold c in Hc, Hper, Hsc. fold k in Hk, Hper, Hsk.
  assert (Hck : c ≠ k) by apply cert_key_distinct.
  assert (Hdc : disk p1 !! c = Some (pem "CERTIFICATE" (cert_base64 h cert))).
  { unfold p1, persisted. simpl.
    rewrite lookup_insert_ne by done. apply lookup_insert_eq. }
  assert (Hdk : disk p1 !! k = Some (pem "PRIVATE KEY" (key_pkcs8_base64 h key))).
  { unfold p1, persisted. simpl. apply lookup_insert_eq. }
  split; [|split; [done|split; [done|split; [|done]]]].
  - rewrite (ensure_cert_enabled h cert_base p Hen Hmk). fold c k.
    unfold usable, stat_complaint. fold c k. rewrite Hc. simpl.
    rewrite emit_nil. by apply generate_success.
  - rewrite (ensure_cert_enabled h' cert_base p1 Hen Hmk'). fold c k.
    unfold usable. by rewrite Hdc, Hdk, Hsc, Hsk, !pem_not_empty.
Qed.

Lemma provisioning_idempotent_witness :
  ∃ p1, ensure_cert sample_host srv (fresh [("PORT", "9999")])
        = (Ok (ssl_paths (cert_path srv) (key_path srv), "HTTPS"), p1)
  ∧ ∃ p2, ensure_cert offline_host srv p1
          = (Ok (ssl_paths (cert_path srv) (key_path srv), "HTTPS"), p2)
          ∧ disk p2 = disk p1.
Proof.
  pose (key := RSAKey 65537 2048 3233 2753).
  pose (cert := Certificate
                  (self_signed sample_host key
                     (san_list_of sample_host
                        (environ (fresh [("PORT", "9999")]))))
                  SHA256 [Byte.x01]).
  assert (He : https_enabled (fresh [("PORT", "9999")])) by reflexivity.
  assert (Hc : disk (fresh [("PORT", "9999")]) !! cert_path srv = None)
    by reflexivity.
  assert (Hk : disk (fresh [("PORT", "9999")]) !! key_path srv = None)
    by reflexivity.
  assert (Hs : signed_certificate sample_host
                 (environ (fresh [("PORT", "9999")])) = Some (key, cert))
    by reflexivity.
  assert (Hp : can_persist sample_host (cert_path srv) (key_path srv) = true)
    by reflexivity.
  destruct (provisioning_idempotent sample_host offline_host srv
              (fresh [("PORT", "9999")]) key cert
              He Hc Hk eq_refl Hs Hp eq_refl eq_refl eq_refl)
    as (H1 & _ & _ & H2 & H3).
  eexists. split; [exact H1|]. eexists. split; [exact H2|exact H3].
Defined.

(** The failures that [generate] guards: a missing [cryptography]
    package, a failing key generation or signature, a file that cannot
    be opened or written all end in HTTP. *)
Lemma generation_failure_falls_back h cert_base p :
  https_enabled p →
  mkdir h (path_join cert_base "bin") = None →
  usable h p (cert_path cert_base) (key_path cert_base) = false →
  signed_certificate h (environ p) = None
  ∨ can_persist h (cert_path cert_base) (key_path cert_base) = false →
  ∃ q, ensure_cert h cert_base p = (Ok (∅, "HTTP"), q).
Proof.
  intros Hen Hmk Hu Hfail.
  rewrite (ensure_cert_enabled h cert_base p Hen Hmk), Hu.
  by apply generate_fallback.
Qed.

(** C1 fails in the code: the creation of the [bin] directory is outside
    both [try] blocks.  On a host where the base directory cannot be
    written, with HTTPS enabled, [ensure_cert] raises the error of
    [mkdir] instead of returning HTTP. *)
Theorem mkdir_failure_escapes :
  https_enabled (fresh [])
  ∧ ensure_cert read_only_host srv (fresh [])
    = (Raise (OSError "Permission denied"), fresh []).
Proof.
  split; [reflexivity|]. by apply ensure_cert_mkdir_raises.
Qed.
End Certificates.

(** ** More on the configuration: passwords, debug mode, padded ports *)

Section Settings.
Import Py.

(** Everything [launcher1.validate_config] returns and prints. *)
Lemma launcher1_validate_config_output p :
  let port := resolved_port (environ p !! "PORT") in
  let api_pw := environ p !! "API_PASSWORD" in
  let debug := launcher1.parse_bool (environ p !! "DEBUG") false in
  launcher1.validate_config p
  = (Ok (port, debug),
     emit p (port_warning (environ p !! "PORT")
             ++ password_warning api_pw
             ++ debug_report debug
                  (if password_given api_pw then default_to "" api_pw
                   else "<not set>") port)).
Proof.
  destruct p as [env dsk out].
  unfold launcher1.validate_config, resolved_port, port_warning,
    in_port_range, password_warning, debug_report, password_given.
  run.
  assert (Hend : ∀ (a b : list line), (out ++ a) ++ b = out ++ a ++ b)
    by (intros; by rewrite <- app_assoc).
  destruct (env !! "PORT") as [s|]; simpl.
  - destruct (Py.int s) as [n|e] eqn:Hint; simpl.
    + destruct ((1 <=? n) && (n <=? 65535)); simpl;
        destruct (truthy (default_to "" (env !! "API_PASSWORD"))); simpl;
        repeat (case_match; run; simplify_eq/=);
        rewrite <- ?app_assoc; simpl; rewrite ?app_nil_r; reflexivity.
    + destruct (int_raises_value_error _ _ Hint) as [v ->]; simpl.
      destruct (truthy (default_to "" (env !! "API_PASSWORD"))); simpl;
        repeat (case_match; run; simplify_eq/=);
        rewrite <- ?app_assoc; simpl; rewrite ?app_nil_r; reflexivity.
  - change (Py.int "8888") with (@Ok Z 8888). simpl.
    destruct (truthy (default_to "" (env !! "API_PASSWORD"))); simpl;
      repeat (case_match; run; simplify_eq/=);
      rewrite <- ?app_assoc; simpl; rewrite ?app_nil_r; reflexivity.
Qed.

(** Everything [launcher.validate_config] returns and prints. *)
Lemma launcher_validate_config_output p :
  let port := resolved_port (environ p !! "PORT") in
  let api_pw := environ p !! "API_PASSWORD" in
  let debug := debug_mode_of (environ p) in
  launcher.validate_config p
  = (Ok (port, debug),
     emit p (port_warning (environ p !! "PORT")
             ++ default_password_warning api_pw
             ++ debug_report debug (default_to "None" api_pw) port)).
Proof.
  destruct p as [env dsk out].
  unfold launcher.validate_config, launcher.int, resolved_port, port_warning,
    in_port_range, default_password_warning, debug_report, debug_mode_of.
  run.
  destruct (env !! "PORT") as [s|]; simpl.
  - destruct (Py.int s) as [n|e] eqn:Hint; simpl.
    + destruct ((1 <=? n) && (n <=? 65535)); simpl;
        repeat (case_match; run; simplify_eq/=);
        rewrite <- ?app_assoc; simpl; rewrite ?app_nil_r; reflexivity.
    + destruct (int_raises_value_error _ _ Hint) as [v ->]; simpl.
      repeat (case_match; run; simplify_eq/=);
        rewrite <- ?app_assoc; simpl; rewrite ?app_nil_r; reflexivity.
  - simpl.
    repeat (case_match; run; simplify_eq/=);
      rewrite <- ?app_assoc; simpl; rewrite ?app_nil_r; reflexivity.
Qed.

(** Everything [launcher.validate_config] does, with the [print] that can
    fail. *)
Lemma launcher_validate_config_with_run fl p :
  let port := resolved_port (environ p !! "PORT") in
  let api_pw := environ p !! "API_PASSWORD" in
  let debug := debug_mode_of (environ p) in
  launcher.validate_config_with fl p
  = attempt fl p
      (port_warning (environ p !! "PORT")
       ++ default_password_warning api_pw
       ++ debug_report debug (default_to "None" api_pw) port)
      (port, debug).
Proof.
  intros port api_pw debug. unfold launcher.validate_config_with.
  cbv zeta.
  assert (Hport :
    try_except
      (let* v := getenv "PORT" in
       let* port := lift (launcher.int (from_option launcher.Str (launcher.Int 8888) v)) in
       if negb ((1 <=? port) && (port <=? 65535))
       then raise (ValueError (OutOfRange port))
       else ret port)
      (λ e, match e with
            | ValueError e =>
                Some (print_on fl (InvalidPort e);;
                      print_on fl (UsingDefaultPort 8888);;
                      ret 8888)
            | _ => None
            end) p
    = attempt fl p (port_warning (environ p !! "PORT")) port).
  { assert (Hwarn : ∀ v q,
      (print_on fl (InvalidPort v);; print_on fl (UsingDefaultPort 8888);;
       ret 8888) q
      = attempt fl q [InvalidPort v; UsingDefaultPort 8888] 8888).
    { intros v q. unfold bind, print_on, ret. simpl.
      destruct (print_error fl (InvalidPort v)); [done|]. simpl.
      by destruct (print_error fl (UsingDefaultPort 8888)). }
    subst port.
    unfold try_except, resolved_port, port_warning, in_port_range.
    unfold bind at 1. unfold getenv at 1.
    destruct (environ p !! "PORT") as [s|]; cbn [from_option launcher.int].
    - unfold bind at 1. unfold lift at 1.
      destruct (Py.int s) as [n|e] eqn:Hint.
      + destruct ((1 <=? n) && (n <=? 65535)); cbn [negb]; [done|].
        unfold raise. apply Hwarn.
      + destruct (int_raises_value_error _ _ Hint) as [v ->]. apply Hwarn.
    - reflexivity. }
  unfold bind at 1. rewrite Hport.
  rewrite attempt_app, (attempt_value _ _ port).
  pose proof (attempt_environ fl (port_warning (environ p !! "PORT")) tt p)
    as Henv.
  destruct (attempt fl p (port_warning (environ p !! "PORT")) tt)
    as [[[]|e] q]; [|done].
  cbn [snd] in Henv.
  unfold bind at 1, getenv at 1. rewrite Henv. fold api_pw.
  assert (Hpw : ∀ q',
    when (bool_decide (api_pw = Some "changeme"))
         (print_on fl DefaultApiPassword;;
          print_on fl DefaultApiPasswordAdvice) q'
    = attempt fl q' (default_password_warning api_pw) tt).
  { intros q'. unfold default_password_warning, when.
    destruct (bool_decide (api_pw = Some "changeme")); [|done].
    apply print_on_then. intros q2. apply print_on_one. }
  unfold bind at 1. rewrite Hpw, attempt_app.
  pose proof (attempt_environ fl (default_password_warning api_pw) tt q)
    as Henv'.
  destruct (attempt fl q (default_password_warning api_pw) tt)
    as [[[]|e] q1]; [|done].
  cbn [snd] in Henv'.
  unfold bind at 1, getenv_default at 1. rewrite Henv', Henv.
  fold (debug_mode_of (environ p)). fold debug.
  unfold bind at 1, when, debug_report.
  destruct debug.
  - assert (Hdbg : ∀ a b c q',
      (print_on fl a;; print_on fl b;; print_on fl c) q'
      = attempt fl q' [a; b; c] tt).
    { intros a b c q'. apply print_on_then. intros q2.
      apply print_on_then. intros q3. apply print_on_one. }
    rewrite Hdbg, (attempt_value _ _ (port, true)).
    by destruct (attempt fl q1 _ tt) as [[[]|e] q2].
  - reflexivity.
Qed.

Lemma attempt_ok {A} fl lines (x y : A) : ∀ p q,
  attempt fl p lines x = (Ok y, q) → x = y.
Proof.
  induction lines as [|l lines IH]; intros p q; simpl.
  - by intros [= -> _].
  - destruct (print_error fl l); [done|]. apply IH.
Qed.

Lemma no_debug_password_in_port_warning v shown :
  DebugApiPassword shown ∉ port_warning v.
Proof.
  unfold port_warning. repeat case_match; not_listed.
Qed.

Lemma lower_eq_ignore_case a b : lower a = lower b → eq_ignore_case a b = true.
Proof.
  revert b; induction a as [|c a IH]; intros [|d b]; simpl; try done.
  intros [= Hc Hab]. by rewrite bool_decide_eq_true_2, (IH b).
Qed.

Lemma append_empty s : s +:+ "" = s.
Proof. induction s as [|c s IH]; [done|]. by rewrite append_cons, IH. Qed.

(** A value that [launcher.py] reads as debug mode is one that
    [parse_bool] accepts. *)
Lemma lower_true_parse_bool v default :
  lower v = "true" → launcher1.parse_bool (Some v) default = true.
Proof.
  intros Hv. unfold launcher1.parse_bool.
  assert (Hstrip : strip v = v).
  { rewrite <- (append_empty v) at 1.
    rewrite <- (append_nil (v +:+ "")).
    apply (strip_word "" v "" "true"); try done.
    - unfold truthy_words. apply elem_of_cons. right. apply elem_of_cons. by left.
    - by apply lower_eq_ignore_case. }
  rewrite Hstrip, Hv. by apply bool_decide_eq_true_2; unfold truthy_words;
    apply elem_of_cons; right; apply elem_of_cons; left.
Qed.

(** *** Padded ports *)

Lemma skip_space_app l s :
  all_chars int_space l = true → skip_space (l +:+ s) = skip_space s.
Proof.
  induction l as [|c l IH]; [done|].
  intros [Hc Hl]%andb_prop. rewrite append_cons. simpl. rewrite Hc. auto.
Qed.

Lemma skip_space_all r : all_chars int_space r = true → skip_space r = "".
Proof.
  induction r as [|c r IH]; [done|].
  intros [Hc Hr]%andb_prop. simpl. rewrite Hc. auto.
Qed.

Lemma int_space_no_digit c :
  int_space c = true → isdigit c = false ∧ c ≠ "_"%char.
Proof.
  destruct c as [[] [] [] [] [] [] [] []]; vm_compute; intros H;
    try discriminate H; split; congruence.
Qed.

(** The digit loop stops at the white space after the digits. *)
Lemma scan_digits_app r : all_chars int_space r = true →
  ∀ s prev_us acc digits v digits',
    scan_digits prev_us acc digits s = Some (v, digits', "") →
    scan_digits prev_us acc digits (s +:+ r) = Some (v, digits', r).
Proof.
  intros Hr. induction s as [|c s IH]; intros prev_us acc digits v digits'.
  - simpl. destruct prev_us; [done|]. intros [= <- <-].
    destruct r as [|d r]; [done|]. simpl in *.
    apply andb_prop in Hr as [Hd _].
    destruct (int_space_no_digit d Hd) as [-> Hus].
    by rewrite decide_False.
  - rewrite append_cons. simpl.
    destruct (isdigit c); [apply IH|].
    destruct (decide (c = "_"%char)).
    + destruct prev_us; [done|apply IH].
    + destruct prev_us; [done|]. intros [=].
Qed.

(** [int] on a string that starts with a digit, after white space. *)
Lemma int_of_digits l c s v digits rest :
  all_chars int_space l = true →
  isdigit c = true →
  scan_digits false 0 0 (String c s) = Some (v, digits, rest) →
  (digits ≤ 5)%nat → digits ≠ 0%nat → skip_space rest = "" →
  int (l +:+ String c s) = Ok v.
Proof.
  intros Hl Hc Hscan Hle Hne Hrest. unfold int.
  rewrite skip_space_app by done.
  destruct c as [[] [] [] [] [] [] [] []]; try (vm_compute in Hc; discriminate Hc).
  all: match goal with
       | |- context [skip_space (String ?c ?t)] =>
           change (skip_space (String c t)) with (String c t)
       end.
  all: cbv beta iota zeta; rewrite Hscan; cbv beta iota zeta.
  all: replace (int_max_str_digits <? digits)%nat with false
         by (symmetry; apply Nat.ltb_ge; unfold int_max_str_digits; lia).
  all: replace (digits =? 0)%nat with false
         by (symmetry; by apply Nat.eqb_neq).
  all: rewrite Hrest; f_equal; lia.
Qed.

Lemma ports_scan_back : all_from 1 (Z.to_nat 65535) scans_back = true.
Proof. vm_compute. reflexivity. Qed.

(** The numeral of a port between two runs of white space reads as the
    port. *)
Lemma int_padded_port l n r :
  1 ≤ n ≤ 65535 →
  all_chars int_space l = true → all_chars int_space r = true →
  int (l +:+ str n +:+ r) = Ok n.
Proof.
  intros Hn Hl Hr.
  pose proof (all_from_spec _ _ _ n ports_scan_back) as Hall.
  unfold scans_back in Hall.
  destruct (str n) as [|c s] eqn:Hstr; [discriminate Hall; lia|].
  destruct (isdigit c) eqn:Hc; [|discriminate Hall; lia].
  destruct (scan_digits false 0 0 (String c s)) as [[[v digits] rest]|] eqn:Hscan;
    [|discriminate Hall; lia].
  destruct rest; [|discriminate Hall; lia].
  assert (Hfacts : (v =? n) && (digits <=? 5)%nat && negb (digits =? 0)%nat = true)
    by (apply Hall; lia).
  apply andb_prop in Hfacts as [[Hv Hd]%andb_prop Hz].
  apply Z.eqb_eq in Hv as ->. apply Nat.leb_le in Hd.
  apply negb_true_iff, Nat.eqb_neq in Hz.
  rewrite append_cons.
  apply (int_of_digits l c (s +:+ r) n digits r); try done.
  - rewrite <- append_cons. by apply scan_digits_app.
  - by apply skip_space_all.
Qed.






End Settings.

(** ** More on the certificate files *)

Section Files.
Import launcher1.

Lemma ensure_cert_disabled h cert_base p :
  parse_bool (environ p !! "DISABLE_HTTPS") false = true →
  ensure_cert h cert_base p
  = (Ok (∅, "HTTP"), emit p [HttpsDisabled; StartingHttp]).
Proof.
  intros Hd. unfold ensure_cert. unfold bind at 1, getenv. rewrite Hd.
  run. by rewrite <- app_assoc.
Qed.

(** Opening truncates: what [write_file] leaves behind in each case. *)
Lemma write_file_cases h f data p :
  write_file h f data p
  = match open_error h f with
    | Some e => (Raise e, p)
    | None =>
        match write_error h f with
        | Some e => (Raise e, Process (environ p) (<[f := []]> (disk p)) (stdout p))
        | None => (Ok tt, Process (environ p) (<[f := data]> (disk p)) (stdout p))
        end
    end.
Proof.
  unfold write_file.
  destruct (open_error h f); [done|].
  destruct (write_error h f); unfold bind, set_file, raise;
    cbn [environ disk stdout]; [done|].
  by rewrite insert_insert_eq.
Qed.

(** What [generate] answers and leaves behind, in every case. *)
Lemma generate_run h c k p :
  ∃ r out,
    generate h c k p
    = (Ok r, Process (environ p)
               (disk_after_generate h (environ p) c k (disk p))
               (stdout p ++ out))
    ∧ (r = (ssl_paths c k, "HTTPS")
       ∧ is_Some (signed_certificate h (environ p))
       ∧ can_persist h c k = true
       ∨ r = (∅, "HTTP")
         ∧ (signed_certificate h (environ p) = None
            ∨ can_persist h c k = false)).
Proof.
  unfold disk_after_generate, signed_certificate, can_persist, no_error, generate.
  unfold try_except. unfold bind at 1.
  destruct (import_cryptography h) as [e|] eqn:Himp; simpl.
  { destruct e; run; eexists _, _; (split; [reflexivity|right; auto]). }
  unfold bind at 1. unfold lift at 1.
  destruct (generate_private_key h 65537 2048) as [key|e].
  2:{ destruct e; run; eexists _, _; (split; [reflexivity|right; auto]). }
  unfold bind at 1. rewrite san_discovery_run.
  fold (san_list_of h (environ p)). fold (detected_ips_of h (environ p)).
  unfold bind at 1. unfold lift at 1. cbn beta iota.
  destruct (rsa_sign h key SHA256 _) as [sig|e].
  2:{ destruct e; unfold emit, bind, print, ret; cbn [environ disk stdout];
      rewrite <- app_assoc; eexists _, _; (split; [reflexivity|right; auto]). }
  unfold bind at 1. rewrite write_file_cases.
  destruct (open_error h c) as [e|].
  { destruct e; unfold emit, bind, print, ret; cbn [environ disk stdout];
      rewrite <- app_assoc; eexists _, _; (split; [reflexivity|right; auto]). }
  destruct (write_error h c) as [e|].
  { destruct e; unfold emit, bind, print, ret; cbn [environ disk stdout];
      rewrite <- app_assoc; eexists _, _; (split; [reflexivity|right; auto]). }
  unfold bind at 1. rewrite write_file_cases. cbn [environ disk stdout emit].
  destruct (open_error h k) as [e|].
  { destruct e; unfold emit, bind, print, ret; cbn [environ disk stdout];
      rewrite <- app_assoc; eexists _, _; (split; [reflexivity|right; auto]). }
  destruct (write_error h k) as [e|].
  { destruct e; unfold emit, bind, print, ret; cbn [environ disk stdout];
      rewrite <- app_assoc; eexists _, _; (split; [reflexivity|right; auto]). }
  unfold when, emit, bind, print, ret; cbn [environ disk stdout].
  destruct (negb (bool_decide (detected_ips_of h (environ p) = []))).
  all: unfold when, emit, bind, print, ret; cbn [environ disk stdout];
    rewrite <- ?app_assoc; eexists _, _; (split; [reflexivity|left; eauto]).
Qed.

Lemma pem_not_nil label body : pem label body ≠ [].
Proof.
  intros H. pose proof (pem_not_empty label body) as Hlen.
  by rewrite H in Hlen.
Qed.

(** A pair of files that are not empty is usable wherever [stat]
    answers. *)
Lemma usable_of_contents h p c k cert key :
  disk p !! c = Some cert → disk p !! k = Some key →
  cert ≠ [] → key ≠ [] →
  stat_error h c = None → stat_error h k = None →
  usable h p c k = true.
Proof.
  intros Hc Hk Hcert Hkey Hsc Hsk. unfold usable.
  rewrite Hc, Hk, Hsc, Hsk. by destruct cert, key.
Qed.

Lemma usable_contents h p c k :
  usable h p c k = true →
  ∃ cert key, disk p !! c = Some cert ∧ disk p !! k = Some key
              ∧ cert ≠ [] ∧ key ≠ [].
Proof.
  unfold usable.
  destruct (disk p !! c) as [cert|]; [|done].
  destruct (disk p !! k) as [key|]; [|done].
  intros H. exists cert, key.
  destruct cert, key; simpl in H; rewrite ?andb_false_r in H; try done.
Qed.

(** What [ensure_cert] answers and what it leaves alone, in every
    case. *)
Lemma ensure_cert_state h cert_base p :
  ∃ r dsk out,
    ensure_cert h cert_base p
    = (r, Process (environ p) dsk (stdout p ++ out))
    ∧ (∀ f, f ≠ cert_path cert_base → f ≠ key_path cert_base →
            dsk !! f = disk p !! f)
    ∧ match r with
      | Ok answer =>
          (answer = (∅, "HTTP")
           ∨ answer = (ssl_paths (cert_path cert_base) (key_path cert_base),
                       "HTTPS"))
          ∧ (mkdir h (path_join cert_base "bin") = None ∨ ¬ https_enabled p)
      | Raise e =>
          https_enabled p ∧ mkdir h (path_join cert_base "bin") = Some e
          ∧ dsk = disk p ∧ out = []
      end.
Proof.
  destruct (parse_bool (environ p !! "DISABLE_HTTPS") false) eqn:Hd.
  { rewrite ensure_cert_disabled by done. eexists _, _, _.
    split; [reflexivity|]. split; [done|]. split; [by left|].
    right. unfold https_enabled. by rewrite Hd. }
  destruct (mkdir h (path_join cert_base "bin")) as [e|] eqn:Hmk.
  { rewrite (ensure_cert_mkdir_raises _ _ _ e) by done.
    exists (Raise e), (disk p), []. rewrite app_nil_r. by destruct p. }
  rewrite ensure_cert_enabled by done.
  destruct (usable h p _ _) eqn:Hus.
  { eexists _, _, _. split; [reflexivity|]. split; [done|]. split; auto. }
  destruct (generate_run h (cert_path cert_base) (key_path cert_base)
              (emit p (stat_complaint h p (cert_path cert_base)
                         (key_path cert_base))))
    as (r & out & -> & Hr).
  cbn [environ disk stdout emit]. rewrite <- app_assoc.
  eexists _, _, _. split; [reflexivity|]. split.
  - intros f Hc Hk. unfold disk_after_generate.
    repeat case_match; rewrite ?lookup_insert_ne by done; done.
  - split; [|by left]. destruct Hr as [[-> _]|[-> _]]; auto.
Qed.



(** *** What [ensure_cert] leaves alone *)

Lemma confined_still touched {A} (m : M A) :
  (∀ p, (m p).2 = p) → confined touched m.
Proof.
  intros Hm p. rewrite Hm. repeat split; try done.
  exists []. by rewrite app_nil_r.
Qed.

Lemma confined_ret touched {A} (a : A) : confined touched (ret a).
Proof. by apply confined_still. Qed.

Lemma confined_raise touched {A} e : confined touched (@raise A e).
Proof. by apply confined_still. Qed.

Lemma confined_lift touched {A} (r : result A) : confined touched (lift r).
Proof. by apply confined_still. Qed.

Lemma confined_getenv touched key : confined touched (getenv key).
Proof. by apply confined_still. Qed.

Lemma confined_getenv_default touched key d :
  confined touched (getenv_default key d).
Proof. by apply confined_still. Qed.

Lemma confined_raise_if_failed touched o :
  confined touched (raise_if_failed o).
Proof. apply confined_still. by destruct o. Qed.

Lemma confined_path_exists_on touched fl f :
  confined touched (path_exists_on fl f).
Proof.
  apply confined_still. intros p. unfold path_exists_on.
  by destruct (exists_error fl f).
Qed.

Lemma confined_stat_size touched h f : confined touched (stat_size h f).
Proof.
  apply confined_still. intros p. unfold stat_size.
  by destruct (stat_error h f), (disk p !! f).
Qed.

Lemma confined_print_on touched fl l : confined touched (print_on fl l).
Proof.
  intros p. unfold print_on. destruct (print_error fl l); simpl.
  - repeat split; try done. exists []. by rewrite app_nil_r.
  - repeat split; try done. by eexists.
Qed.

Lemma confined_write_file touched h f data :
  f ∈ touched → confined touched (write_file h f data).
Proof.
  intros Hf p. rewrite write_file_cases.
  destruct (open_error h f); [|destruct (write_error h f)]; simpl.
  - repeat split; try done. exists []. by rewrite app_nil_r.
  - repeat split; try done.
    + intros g Hg. rewrite lookup_insert_ne; [done|]. by intros ->.
    + exists []. by rewrite app_nil_r.
  - repeat split; try done.
    + intros g Hg. rewrite lookup_insert_ne; [done|]. by intros ->.
    + exists []. by rewrite app_nil_r.
Qed.

Lemma confined_bind touched {A B} (m : M A) (k : A → M B) :
  confined touched m → (∀ a, confined touched (k a)) →
  confined touched (bind m k).
Proof.
  intros Hm Hk p. unfold bind.
  destruct (Hm p) as (He & Hd & out & Ho).
  destruct (m p) as [[a|e] q]; simpl in *; [|eauto].
  destruct (Hk a q) as (He' & Hd' & out' & Ho').
  rewrite He', Ho', He, Ho, <- app_assoc.
  repeat split; [|by eexists].
  intros f Hf. by rewrite Hd', Hd.
Qed.

Lemma confined_try_except touched {A} (body : M A) handler :
  confined touched body →
  (∀ e h, handler e = Some h → confined touched h) →
  confined touched (try_except body handler).
Proof.
  intros Hm Hh p. unfold try_except.
  destruct (Hm p) as (He & Hd & out & Ho).
  destruct (body p) as [[a|e] q]; simpl in *; [eauto|].
  destruct (handler e) as [h|] eqn:Hhe; [|simpl; eauto].
  destruct (Hh e h Hhe q) as (He' & Hd' & out' & Ho').
  rewrite He', Ho', He, Ho, <- app_assoc.
  repeat split; [|by eexists].
  intros f Hf. by rewrite Hd', Hd.
Qed.

Lemma confined_for_each touched {A S} (l : list A) (body : S → A → M S) :
  (∀ s x, confined touched (body s x)) →
  ∀ s, confined touched (for_each l body s).
Proof.
  intros Hbody. induction l as [|x l IH]; intros s; simpl.
  - apply confined_ret.
  - apply confined_bind; [apply Hbody|apply IH].
Qed.

Lemma confined_ensure_cert_with fl h cert_base :
  confined [cert_path cert_base; key_path cert_base]
    (ensure_cert_with fl h cert_base).
Proof.
  unfold ensure_cert_with, load_existing_with, generate_with,
    san_discovery_with, seed_san_list, when.
  fold (cert_path cert_base). fold (key_path cert_base).
  repeat
    first
      [ apply confined_ret
      | apply confined_raise
      | apply confined_lift
      | apply confined_getenv
      | apply confined_getenv_default
      | apply confined_raise_if_failed
      | apply confined_path_exists_on
      | apply confined_stat_size
      | apply confined_print_on
      | apply confined_write_file;
        repeat ((by apply elem_of_cons; left) || (apply elem_of_cons; right))
      | apply confined_for_each; intros [? ?] ?; unfold add_custom_ip_with
      | apply confined_bind; [|intros ?]
      | apply confined_try_except; [|intros ? ? ?]
      | match goal with
        | |- confined _ (add_hostname_ip _ (?a, ?b)) =>
            unfold add_hostname_ip
        | |- confined _ (add_primary_ip _ ?acc) =>
            destruct acc; unfold add_primary_ip
        | |- confined _ (let '(_, _) := ?x in _) => destruct x
        | |- confined _ (if ?b then _ else _) => destruct b
        | |- confined _ (match ?o with Some _ => _ | None => _ end) =>
            destruct o
        | H : match ?e with _ => _ end = Some _ |- _ =>
            destruct e; try discriminate H
        | H : Some _ = Some _ |- _ => injection H as <-
        end ].
Qed.






Lemma signed_certificate_san h env key cert :
  signed_certificate h env = Some (key, cert) →
  subject_alternative_name (tbs cert) = san_list_of h env.
Proof.
  unfold signed_certificate. repeat case_match; try done.
  by intros [= <- <-].
Qed.

Lemma detected_ips_valid h env :
  Forall (λ ip, valid_ipv4 ip = true) (detected_ips_of h env).
Proof.
  apply Forall_forall. intros ip. unfold detected_ips_of.
  rewrite elem_of_app. intros [Hip|Hip].
  - by apply (network_ips_valid h).
  - by apply well_formed_elem in Hip as [_ Hip].
Qed.


End Files.

(** ** The bootstrap of [launcher1.py] *)

Section Bootstrap.
Import launcher1.

Lemma lift_M_run {A} (m : M A) env contents out levels path handlers calls
    r p :
  m (Process env contents []) = (r, p) →
  lift_M m (Session env contents out levels path handlers calls)
  = (match r with Ok a => Done a | Raise e => Stop (Exception e) end,
     Session (environ p) (disk p) (out ++ (Said <$> stdout p))
             levels path handlers calls).
Proof. unfold lift_M. simpl. by intros ->. Qed.

Lemma show_startup_info_run h base_path protocol host_name port s :
  show_startup_info h base_path protocol host_name port s
  = (Done tt, tell s (banner h base_path protocol host_name port)).
Proof.
  unfold show_startup_info, banner, resolves. destruct s. wrun.
  destruct (bool_decide (host_name ∈ ["0.0.0.0"; "::"])); wrun.
  - destruct (gethostname h) as [name|e]; wrun.
    + destruct (gethostbyname h name) as [ip|e]; wrun;
        by rewrite <- !app_assoc.
    + by rewrite <- !app_assoc.
  - by rewrite <- !app_assoc.
Qed.

Lemma prepare_env_paths_run pf base_path s :
  prepare_env_paths pf base_path s
  = (Done tt,
     Session (path_prefixed pf base_path s) (files s) (console s)
             (logger_levels s) (sys_path s) (signal_handlers s)
             (uvicorn_calls s)).
Proof.
  unfold prepare_env_paths, path_prefixed. destruct s. wrun.
  destruct (is_directory pf _ || _); wrun; [|done].
  unfold lift_M, getenv_default; simpl. by rewrite app_nil_r.
Qed.

Lemma load_dotenv_run pf dotenv_path s :
  load_dotenv pf dotenv_path s
  = match dotenv_read pf dotenv_path (os_environ s) (files s) with
    | Raise e => (Stop (Exception e), s)
    | Ok values =>
        (Done (match files s !! dotenv_path with
               | Some _ => negb (bool_decide (values = ∅))
               | None => false
               end),
         Session (os_environ s ∪ omap id values) (files s) (console s)
                 (logger_levels s) (sys_path s) (signal_handlers s)
                 (uvicorn_calls s))
    end.
Proof.
  unfold load_dotenv, dotenv_read. destruct s. simpl.
  destruct (_ !! dotenv_path); [by destruct (dotenv_values _ _ _)|].
  by rewrite omap_empty, (right_id ∅ (∪)).
Qed.

Lemma configure_logging_run pf debug s :
  configure_logging pf debug s
  = (Done tt,
     Session (os_environ s) (files s) (console s)
             (logging_levels pf debug (logger_levels s)) (sys_path s)
             (signal_handlers s) (uvicorn_calls s)).
Proof.
  unfold configure_logging, logging_levels. destruct s.
  destruct (root_has_handlers pf), debug; reflexivity.
Qed.

Lemma register_handlers_run pf s :
  wfor [SIGINT; SIGTERM]
    (λ sig, wtry (install_handler pf sig)
              (λ i, match i with
                    | Exception _ => Some (wret tt)
                    | _ => None
                    end)) s
  = (Done tt,
     Session (os_environ s) (files s) (console s) (logger_levels s)
             (sys_path s) (signal_handlers s ++ registered pf)
             (uvicorn_calls s)).
Proof.
  unfold registered, install_handler. destruct s. simpl. wrun.
  destruct (signal_error pf SIGINT), (signal_error pf SIGTERM); simpl;
    rewrite <- ?app_assoc, ?app_nil_r; reflexivity.
Qed.

(** [main], step by step: the environment is prepared, the configuration
    validated, the certificate ensured, the banner printed, the handlers
    registered and the server started. *)
Lemma main_run pf h hb s :
  let base := get_runtime_base pf in
  let env0 := path_prefixed pf base s in
  main pf h hb s
  = match dotenv_read pf (path_join base ".env") env0 (files s) with
    | Raise e =>
        (Stop (Exception e),
         Session env0 (files s) (console s) (logger_levels s)
                 (path_str base :: sys_path s) (signal_handlers s)
                 (uvicorn_calls s))
    | Ok values =>
        let env := env0 ∪ omap id values in
        let port := resolved_port (env !! "PORT") in
        let debug := parse_bool (env !! "DEBUG") false in
        let host_name := default_to "0.0.0.0" (env !! "HOST") in
        let http2 := parse_bool (env !! "UVICORN_HTTP2") true in
        let checked :=
          Said <$> stdout (validate_config (Process env (files s) [])).2 in
        let levels := logging_levels pf debug (logger_levels s) in
        match ensure_cert h base (Process env (files s) []) with
        | (Raise e, p2) =>
            (Stop (Exception e),
             Session (environ p2) (disk p2)
                     (console s ++ checked ++ (Said <$> stdout p2))
                     levels (path_str base :: sys_path s)
                     (signal_handlers s) (uvicorn_calls s))
        | (Ok (ssl_config, protocol), p2) =>
            let cfg :=
              build_uvicorn_config port host_name ssl_config http2 debug in
            (serving_ends pf cfg,
             Session (environ p2) (disk p2)
                     (console s ++ checked ++ (Said <$> stdout p2)
                      ++ banner hb base protocol host_name port)
                     levels (path_str base :: sys_path s)
                     (signal_handlers s ++ registered pf)
                     (uvicorn_calls s ++ [cfg]))
        end
    end.
Proof.
  intros base env0. unfold main. fold base.
  unfold wbind at 1. rewrite prepare_env_paths_run. fold env0.
  unfold wbind at 1. unfold sys_path_insert at 1.
  cbn [os_environ files console logger_levels sys_path signal_handlers
       uvicorn_calls].
  unfold wbind at 1. rewrite load_dotenv_run.
  cbn [os_environ files console logger_levels sys_path signal_handlers
       uvicorn_calls].
  destruct (dotenv_read pf (path_join base ".env") env0 (files s))
    as [values|e]; [|done].
  cbv zeta.
  set (env := env0 ∪ omap id values).
  unfold wbind at 1.
  rewrite (lift_M_run validate_config _ _ _ _ _ _ _ _ _
             (launcher1_validate_config_output _)).
  cbn [process_of os_environ files console logger_levels sys_path
       signal_handlers uvicorn_calls environ disk stdout emit].
  unfold wbind at 1.
  rewrite (lift_M_run (getenv_default "HOST" "0.0.0.0")
             _ _ _ _ _ _ _ _ _ eq_refl).
  cbn [process_of os_environ files console logger_levels sys_path
       signal_handlers uvicorn_calls environ disk stdout emit].
  unfold wbind at 1.
  rewrite (lift_M_run (getenv "UVICORN_HTTP2") _ _ _ _ _ _ _ _ _ eq_refl).
  cbn [process_of os_environ files console logger_levels sys_path
       signal_handlers uvicorn_calls environ disk stdout emit].
  unfold wbind at 1. rewrite configure_logging_run.
  cbn [process_of os_environ files console logger_levels sys_path
       signal_handlers uvicorn_calls environ disk stdout emit].
  unfold wbind at 1.
  destruct (ensure_cert h base (Process env (files s) []))
    as [[[ssl_config protocol]|e] p2] eqn:Hcert.
  - rewrite (lift_M_run (ensure_cert h base) _ _ _ _ _ _ _ _ _ Hcert).
    cbn [process_of os_environ files console logger_levels sys_path
         signal_handlers uvicorn_calls environ disk stdout emit].
    unfold wbind at 1. rewrite show_startup_info_run.
    unfold wbind at 1. rewrite register_handlers_run.
    unfold uvicorn_run, tell.
    cbn [process_of os_environ files console logger_levels sys_path
         signal_handlers uvicorn_calls environ disk stdout emit].
    rewrite launcher1_validate_config_output.
    cbn [snd stdout emit]. rewrite !app_nil_r, !app_nil_l.
    by rewrite <- !app_assoc.
  - rewrite (lift_M_run (ensure_cert h base) _ _ _ _ _ _ _ _ _ Hcert).
    cbn [process_of os_environ files console logger_levels sys_path
         signal_handlers uvicorn_calls environ disk stdout emit].
    rewrite launcher1_validate_config_output.
    cbn [snd stdout emit]. rewrite !app_nil_r, !app_nil_l.
    by rewrite <- !app_assoc.
Qed.
End Bootstrap.

(** ** What [launcher1.main] starts the server with *)

Section Launch.
Import launcher1.

(** A setting of [main]: the environment first, then the [.env] file. *)
Lemma merged_setting pf base_path s values key :
  key ≠ "PATH" →
  (path_prefixed pf base_path s ∪ omap id values) !! key
  = or_else (os_environ s !! key) (dotenv_value values key).
Proof.
  intros Hkey. rewrite lookup_union, lookup_omap.
  unfold path_prefixed, dotenv_value, or_else.
  destruct (visible pf s _); rewrite ?lookup_insert_ne by done;
    destruct (os_environ s !! key), (values !! key) as [[v|]|]; done.
Qed.

(** The entries that the paths of the TLS files leave alone. *)
Lemma config_entries port host_name ssl_config http2 debug :
  ssl_config = ∅ ∨ (∃ c k, ssl_config = ssl_paths c k) →
  let cfg := build_uvicorn_config port host_name ssl_config http2 debug in
  cfg !! "port" = Some (PInt port)
  ∧ cfg !! "host" = Some (PStr host_name)
  ∧ cfg !! "log_level" = Some (PStr (if debug then "debug" else "info")).
Proof.
  intros [->|(c & k & ->)]; unfold build_uvicorn_config;
    repeat split; (rewrite lookup_union_r; [reflexivity|reflexivity]).
Qed.











End Launch.

(** ** The bootstrap of [launcher.py] *)

Section Script.
Import launcher.

Lemma setdefault_loop (l : list (string * string)) : ∀ s,
  wfor l (λ '(key, default_value), setdefault key default_value) s
  = (Done tt,
     Session (os_environ s ∪ list_to_map l) (files s) (console s)
             (logger_levels s) (sys_path s) (signal_handlers s)
             (uvicorn_calls s)).
Proof.
  induction l as [|[key value] l IH]; intros s.
  - simpl. rewrite (right_id ∅ (∪)). by destruct s.
  - cbn [wfor]. unfold wbind at 1. unfold setdefault at 1.
    assert (Hmap : ∀ env : gmap string string,
              (match env !! key with
               | Some _ => env
               | None => <[key := value]> env
               end) ∪ list_to_map l
              = env ∪ <[key := value]> (list_to_map l)).
    { intros env. apply map_eq. intros k.
      rewrite !lookup_union.
      destruct (decide (k = key)) as [->|Hk].
      - rewrite lookup_insert_eq.
        destruct (env !! key) eqn:He; rewrite ?He, ?lookup_insert_eq;
          by destruct (list_to_map l !! key).
      - rewrite lookup_insert_ne by done.
        destruct (env !! key); rewrite ?lookup_insert_ne by done; done. }
    destruct (os_environ s !! key) eqn:He.
    + rewrite IH. cbn [list_to_map]. rewrite <- Hmap, He. done.
    + unfold putenv. rewrite IH.
      cbn [os_environ files console logger_levels sys_path signal_handlers
           uvicorn_calls list_to_map].
      rewrite <- Hmap, He. done.
Qed.

Lemma setup_environment_run pf s :
  let base := base_path_of pf in
  let dotenv_path := path_join base ".env" in
  setup_environment pf s
  = match import_dotenv pf with
    | Some e => (Stop (Exception e), s)
    | None =>
        match dotenv_read pf dotenv_path (os_environ s) (files s) with
        | Raise e => (Stop (Exception e), s)
        | Ok values =>
            (Done base,
             Session ((os_environ s ∪ omap id values) ∪ list_to_map defaults)
                     (files s)
                     (console s
                      ++ [if visible pf s dotenv_path
                          then LoadedConfiguration dotenv_path
                          else NoEnvFile dotenv_path])
                     (logger_levels s) (sys_path s) (signal_handlers s)
                     (uvicorn_calls s))
        end
    end.
Proof.
  intros base dotenv_path. unfold setup_environment. fold base dotenv_path.
  unfold wbind at 1.
  destruct (import_dotenv pf) as [e|]; [done|].
  cbn [import_or_raise wret].
  unfold wbind at 1. unfold path_visible at 1. fold (visible pf s dotenv_path).
  unfold wbind at 1.
  destruct (visible pf s dotenv_path) eqn:Hvis.
  - unfold wbind at 1. rewrite load_dotenv_run.
    destruct (dotenv_read pf dotenv_path (os_environ s) (files s))
      as [values|e]; [|done].
    unfold say at 1.
    cbn [os_environ files console logger_levels sys_path signal_handlers
         uvicorn_calls].
    unfold wbind at 1. rewrite setdefault_loop. done.
  - assert (Hfile : files s !! dotenv_path = None).
    { unfold visible in Hvis. destruct (files s !! dotenv_path); [|done].
      by rewrite orb_true_r in Hvis. }
    unfold dotenv_read. rewrite Hfile.
    unfold say at 1.
    cbn [os_environ files console logger_levels sys_path signal_handlers
         uvicorn_calls].
    unfold wbind at 1. rewrite setdefault_loop.
    cbn [os_environ files console logger_levels sys_path signal_handlers
         uvicorn_calls wret].
    by rewrite omap_empty, (right_id ∅ (∪)).
Qed.



(** The loop over the pairs of file names is a search for the first pair
    whose two files exist. *)
Lemma detect_certificates_run pf base_path pairs s :
  detect_certificates pf base_path pairs s
  = (Done (ssl_args_of base_path (List.find (both_visible pf s base_path) pairs),
           match List.find (both_visible pf s base_path) pairs with
           | Some _ => "HTTPS"
           | None => "HTTP"
           end),
     tell s [match List.find (both_visible pf s base_path) pairs with
             | Some (cert_name, key_name) => SslEnabled cert_name key_name
             | None => NoSslCertificates
             end]).
Proof.
  induction pairs as [|[cert_name key_name] pairs IH]; [reflexivity|].
  cbn [detect_certificates List.find]. unfold both_visible at 1 3 5.
  cbn [fst snd]. unfold wbind at 1, path_visible at 1.
  fold (visible pf s (path_join base_path cert_name)).
  destruct (visible pf s (path_join base_path cert_name)).
  - unfold wbind at 1, path_visible at 1.
    fold (visible pf s (path_join base_path key_name)).
    destruct (visible pf s (path_join base_path key_name)); [done|].
    exact IH.
  - exact IH.
Qed.



(** *** Computations that only print *)

Lemma only_prints_wret {A} (a : A) : only_prints (wret a).
Proof.
  intros s. repeat split; try done; exists []; by rewrite app_nil_r.
Qed.

Lemma only_prints_wstop {A} i : only_prints (@wstop A i).
Proof.
  intros s. repeat split; try done; exists []; by rewrite app_nil_r.
Qed.

Lemma only_prints_say n : only_prints (say n).
Proof.
  intros s. repeat split; try done; [by eexists|].
  exists []. by rewrite app_nil_r.
Qed.

Lemma only_prints_uvicorn_run pf kwargs : only_prints (uvicorn_run pf kwargs).
Proof.
  intros s. repeat split; try done; [|by eexists].
  exists []. by rewrite app_nil_r.
Qed.

Lemma only_prints_path_visible pf f : only_prints (path_visible pf f).
Proof.
  intros s. repeat split; try done; exists []; by rewrite app_nil_r.
Qed.

Lemma only_prints_wbind {A B} (m : W A) (k : A → W B) :
  only_prints m → (∀ a, only_prints (k a)) → only_prints (wbind m k).
Proof.
  intros Hm Hk s. unfold wbind.
  destruct (Hm s) as (He & Hf & (out & Ho) & (calls & Hc)).
  destruct (m s) as [[a|i] s1]; simpl in *; [|eauto 8].
  destruct (Hk a s1) as (He' & Hf' & (out' & Ho') & (calls' & Hc')).
  rewrite He', Hf', Hc', Ho', He, Hf, Hc, Ho, <- !app_assoc. eauto 8.
Qed.

Lemma only_prints_wtry {A} (body : W A) handler :
  only_prints body →
  (∀ i h, handler i = Some h → only_prints h) →
  only_prints (wtry body handler).
Proof.
  intros Hm Hh s. unfold wtry.
  destruct (Hm s) as (He & Hf & (out & Ho) & (calls & Hc)).
  destruct (body s) as [[a|i] s1]; simpl in *; [eauto 8|].
  destruct (handler i) as [h|] eqn:Hi; [|simpl; eauto 8].
  destruct (Hh i h Hi s1) as (He' & Hf' & (out' & Ho') & (calls' & Hc')).
  rewrite He', Hf', Hc', Ho', He, Hf, Hc, Ho, <- !app_assoc. eauto 8.
Qed.

Lemma only_prints_validate_config : only_prints (lift_M validate_config).
Proof.
  intros [env contents out levels path handlers calls].
  rewrite (lift_M_run validate_config _ _ _ _ _ _ _ _ _
             (launcher_validate_config_output _)).
  simpl. repeat split; try done; [by eexists|].
  exists []. by rewrite app_nil_r.
Qed.

Lemma env_flag_run name s :
  env_flag name s
  = (Done (bool_decide
             (Py.lower (default_to "false" (os_environ s !! name)) = "true")),
     s).
Proof.
  destruct s as [env contents out levels path handlers calls].
  unfold env_flag, wbind.
  rewrite (lift_M_run (getenv_default name "false")
             _ _ _ _ _ _ _ _ _ eq_refl).
  simpl. by rewrite app_nil_r.
Qed.

Lemma only_prints_env_flag name : only_prints (env_flag name).
Proof.
  intros s. rewrite env_flag_run. simpl.
  repeat split; try done; exists []; by rewrite app_nil_r.
Qed.

Lemma only_prints_import o : only_prints (import_or_raise o).
Proof. destruct o; [apply only_prints_wstop|apply only_prints_wret]. Qed.

Lemma only_prints_detect_certificates pf base_path pairs :
  only_prints (detect_certificates pf base_path pairs).
Proof.
  intros s. rewrite detect_certificates_run. simpl.
  repeat split; try done; [by eexists|].
  exists []. by rewrite app_nil_r.
Qed.

Lemma only_prints_show_startup_info pf base_path port :
  only_prints (show_startup_info pf base_path port).
Proof.
  unfold show_startup_info. cbn [wfor].
  repeat
    first
      [ apply only_prints_say
      | apply only_prints_wret
      | apply only_prints_wstop
      | apply only_prints_uvicorn_run
      | apply only_prints_path_visible
      | apply only_prints_validate_config
      | apply only_prints_env_flag
      | apply only_prints_import
      | apply only_prints_detect_certificates
      | apply only_prints_wbind; [|intros ?]
      | apply only_prints_wtry; [|intros ? ? ?]
      | match goal with
        | |- only_prints (let '(_, _) := ?x in _) => destruct x
        | |- only_prints (if ?b then _ else _) => destruct b
        | H : match ?i with _ => _ end = Some _ |- _ =>
            destruct i; try discriminate H
        | H : Some _ = Some _ |- _ => injection H as <-
        end ].
Qed.

Lemma only_prints_run pf : only_prints (run pf).
Proof.
  unfold run.
  repeat
    first
      [ apply only_prints_say
      | apply only_prints_wret
      | apply only_prints_wstop
      | apply only_prints_uvicorn_run
      | apply only_prints_path_visible
      | apply only_prints_validate_config
      | apply only_prints_env_flag
      | apply only_prints_import
      | apply only_prints_detect_certificates
      | apply only_prints_wbind; [|intros ?]
      | apply only_prints_wtry; [|intros ? ? ?]
      | match goal with
        | |- only_prints (let '(_, _) := ?x in _) => destruct x
        | |- only_prints (if ?b then _ else _) => destruct b
        | H : match ?i with _ => _ end = Some _ |- _ =>
            destruct i; try discriminate H
        | H : Some _ = Some _ |- _ => injection H as <-
        end ].
Qed.

(** *** How [run] ends *)

(** The handler of [except Exception] in [run]. *)
Lemma error_handler_run e s :
  (say (ErrorStarting e);+
   let+ debug := env_flag "DEBUG" in
   (if debug then say Traceback else wret tt);+
   (wstop (SystemExit 1) : W unit)) s
  = (Stop (SystemExit 1),
     tell s (ErrorStarting e
             :: if debug_mode_of (os_environ s) then [Traceback] else [])).
Proof.
  destruct s as [env contents out levels path handlers calls].
  unfold wbind at 1. unfold say at 1.
  cbn [os_environ files console logger_levels sys_path signal_handlers
       uvicorn_calls].
  unfold wbind at 1. rewrite env_flag_run. unfold debug_mode_of, tell.
  cbn [os_environ files console logger_levels sys_path signal_handlers
       uvicorn_calls].
  destruct (bool_decide _); wrun; by rewrite <- ?app_assoc.
Qed.

(** [run] ends normally or with [sys.exit]: its handlers answer every
    exception. *)
Lemma run_outcome pf s :
  ∃ o s', run pf s = (o, s')
          ∧ (o = Done tt ∨ ∃ code, o = Stop (SystemExit code)).
Proof.
  unfold run. unfold wtry at 1.
  match goal with
  | |- context [match ?body s with _ => _ end] =>
      destruct (body s) as [[[]|[e|code|]] s1]
  end; cbv beta iota.
  - eexists _, _. split; [reflexivity|]. by left.
  - rewrite error_handler_run. eexists _, _. split; [reflexivity|].
    right. by eexists.
  - eexists _, _. split; [reflexivity|]. right. by eexists.
  - eexists _, _. split; [reflexivity|]. by left.
Qed.



End Script.

Section Serving.
Import launcher.

Lemma wbind_done {A B} (m : W A) (k : A → W B) s a s1 :
  m s = (Done a, s1) → wbind m k s = k a s1.
Proof. unfold wbind. by intros ->. Qed.

Lemma wbind_say {B} n (k : unit → W B) s :
  wbind (say n) k s = k tt (tell s [n]).
Proof. reflexivity. Qed.

Lemma wbind_wret {A B} (a : A) (k : A → W B) s : wbind (wret a) k s = k a s.
Proof. reflexivity. Qed.

Lemma lift_M_emit {A} (m : M A) s a lines :
  m (process_of s) = (Ok a, emit (process_of s) lines) →
  lift_M m s = (Done a, tell s (Said <$> lines)).
Proof. unfold lift_M, process_of, emit, tell. by intros ->. Qed.

Lemma tell_tell s a b : tell (tell s a) b = tell s (a ++ b).
Proof. unfold tell. simpl. by rewrite <- app_assoc. Qed.

(** The session from which [uvicorn.run] is called in [run], and the
    arguments of the call. *)
Lemma run_serving pf s :
  import_uvicorn pf = None →
  install_uvloop pf = None ∨ install_uvloop pf = Some ImportError →
  import_app pf = None →
  ∃ out,
    run pf s
    = (run_ends (serving_ends pf (run_arguments pf s)),
       Session (os_environ s) (files s) (console s ++ out) (logger_levels s)
               (sys_path s) (signal_handlers s)
               (uvicorn_calls s ++ [run_arguments pf s])).
Proof.
  intros Huv Hloop Happ.
  unfold run. rewrite Huv, Happ. unfold wtry at 1.
  cbn [import_or_raise]. rewrite wbind_wret.
  assert (Hloop' : ∃ l,
    wtry (import_or_raise (install_uvloop pf);+ say UvloopActivated)
      (λ i, match i with
            | Exception ImportError => Some (say UvloopUnavailable)
            | _ => None
            end) s
    = (Done tt, tell s [l])).
  { destruct Hloop as [->| ->]; eexists; reflexivity. }
  destruct Hloop' as [l Hl].
  rewrite (wbind_done _ _ _ _ _ Hl).
  rewrite (wbind_done (wtry (wret tt) _) _ _ tt _ eq_refl).
  erewrite wbind_done;
    [|apply lift_M_emit, launcher_validate_config_output].
  cbv beta iota zeta.
  erewrite wbind_done; [|apply detect_certificates_run].
  cbv beta iota zeta.
  rewrite !wbind_say.
  erewrite wbind_done; [|apply env_flag_run].
  set (speedtest := if negb _ then say _ else wret tt).
  assert (Hspeed : ∃ more, ∀ s1, speedtest s1 = (Done tt, tell s1 more)).
  { subst speedtest. destruct (negb _).
    - eexists. intros s1. reflexivity.
    - exists []. intros [? ? ? ? ? ? ?]. unfold tell. simpl.
      by rewrite app_nil_r. }
  destruct Hspeed as [more Hmore].
  rewrite (wbind_done _ _ _ _ _ (Hmore _)).
  rewrite !wbind_say. rewrite !tell_tell.
  unfold uvicorn_run, tell.
  cbn [os_environ files console logger_levels sys_path signal_handlers
       uvicorn_calls process_of environ].
  assert (Hargs : ∀ (debug_mode : bool),
            (if frozen pf then false else debug_mode)
            = negb (frozen pf) && debug_mode)
    by (intros; by destruct (frozen pf)).
  assert (Hlevel : ∀ (debug_mode : bool),
            (if negb debug_mode then "info" else "debug")
            = (if debug_mode then "debug" else "info"))
    by (intros; by destruct debug_mode).
  rewrite Hargs, Hlevel.
  change (_ ∪ list_to_map _) with (run_arguments pf s).
  destruct (serving_ends pf _) as [[]|[e|code|]]; cbv beta iota.
  - by eexists.
  - rewrite error_handler_run. unfold tell. simpl.
    rewrite <- app_assoc. by eexists.
  - by eexists.
  - unfold say. simpl. rewrite <- app_assoc. by eexists.
Qed.

Lemma run_arguments_entries pf s :
  let args := run_arguments pf s in
  let debug_mode := debug_mode_of (os_environ s) in
  args !! "host" = Some (PStr "0.0.0.0")
  ∧ args !! "port" = Some (PInt (resolved_port (os_environ s !! "PORT")))
  ∧ args !! "reload" = Some (PBool (negb (frozen pf) && debug_mode))
  ∧ args !! "log_level"
    = Some (PStr (if debug_mode then "debug" else "info"))
  ∧ args !! "access_log" = Some (PBool debug_mode).
Proof.
  unfold run_arguments.
  destruct (List.find _ _) as [[cert_name key_name]|]; cbn [ssl_args_of];
    repeat split; (rewrite lookup_union_r; [reflexivity|reflexivity]).
Qed.




End Serving.
